(** * pingpong-bot: the match lifecycle of [app.py], embedded and verified

    The development follows [src/app.py]:

    - [PyStr], [Re]: the Python built-ins the handlers rely on
      ([str.strip], [str.startswith], [str.split], [int], [re.search]);
    - [Db]: the two tables created by [init_db] and the four statements
      [create_match], [get_match], [delete_match], [record_result];
    - [Slack]: payloads, the calls made on the Web client and the answers the
      platform can give;
    - [Bot]: the six handlers, written in a state-and-exception monad over
      the database and an event trace;
    - then the properties of the handlers.

    Conventions of the embedding.  A Python [str] is a [string] of bytes
    (UTF-8).  A Python [int] is a [Z].  The rendered texts and Block Kit
    dictionaries are constructors that keep every interpolated value.
    [print] calls (debug logging) are left out.

    What the handlers take from the interpreter and from the database
    engine is a parameter, [Runtime]: Python's [int] and [str.strip], whose
    behaviour on text outside ASCII and on very long numerals is the
    interpreter's, and the range of an [INTEGER] column, which is the
    engine's.  Every general statement holds for every [Runtime].  An
    insert of a score outside the range raises; apart from that the SQL
    statements succeed, and clock readings fit their column. *)

From Stdlib Require Import ZArith Lia Ascii String List.
From stdpp Require Import base option strings gmap list pretty.

Local Open Scope string_scope.
Local Open Scope list_scope.
Local Open Scope Z_scope.

(** ** Python strings

    Reference implementations of the built-ins on ASCII text.  [strip] and
    [int] are used in the scenarios only, on ASCII inputs, where they agree
    with the interpreter; the handlers take the interpreter's own functions
    from the [Runtime]. *)

Module PyStr.

(** The ASCII characters for which [str.isspace] holds. *)
Definition is_space (c : ascii) : bool :=
  match c with
  | "009" | "010" | "011" | "012" | "013"
  | "028" | "029" | "030" | "031" | " " => true
  | _ => false
  end%char.

Fixpoint lstrip (s : string) : string :=
  match s with
  | String c s' => if is_space c then lstrip s' else s
  | EmptyString => EmptyString
  end.

(** [rstrip] keeps a character when it is not a space or when something
    is kept after it. *)
Fixpoint rstrip (s : string) : string :=
  match s with
  | String c s' =>
      match rstrip s' with
      | EmptyString => if is_space c then EmptyString else String c EmptyString
      | t => String c t
      end
  | EmptyString => EmptyString
  end.

(** [s.strip()] *)
Definition strip (s : string) : string := rstrip (lstrip s).

(** [s.startswith(p)] *)
Definition startswith (p s : string) : bool := String.prefix p s.

(** [s.split(sep, 1)] for a one-character separator: one or two pieces. *)
Fixpoint split1 (sep : ascii) (s : string) : list string :=
  match s with
  | EmptyString => [EmptyString]
  | String c s' =>
      if Ascii.eqb c sep then [EmptyString; s']
      else match split1 sep s' with
           | [a] => [String c a]
           | a :: rest => String c a :: rest
           | [] => []
           end
  end.

Definition digit_val (c : ascii) : option Z :=
  let n := Z.of_N (N_of_ascii c) in
  if (48 <=? n) && (n <=? 57) then Some (n - 48) else None.

(** The digits of a decimal literal; single underscores are allowed
    between digits only. *)
Fixpoint digits (acc : Z) (after_digit : bool) (s : string) : option Z :=
  match s with
  | EmptyString => if after_digit then Some acc else None
  | String c s' =>
      if Ascii.eqb c "_" then
        if after_digit then digits acc false s' else None
      else
        match digit_val c with
        | Some d => digits (10 * acc + d) true s'
        | None => None
        end
  end.

(** [int(s)] in base 10 on ASCII text shorter than the interpreter's
    limit on digits: surrounding whitespace, an optional sign, then digits.
    [None] stands for [ValueError]. *)
Definition int (s : string) : option Z :=
  match strip s with
  | String "-" s' => Z.opp <$> digits 0 false s'
  | String "+" s' => digits 0 false s'
  | s' => digits 0 false s'
  end.

(** [c in s] *)
Fixpoint contains (c : ascii) (s : string) : bool :=
  match s with
  | EmptyString => false
  | String c' s' => Ascii.eqb c c' || contains c s'
  end.

End PyStr.

(** ** Regular expressions: the fragment of [re] used by the resolver

    A backtracking matcher in continuation-passing style, with the
    priorities of Python's [re]: quantifiers are greedy, an optional group
    is tried before it is skipped, and [search] returns the match found at
    the leftmost start position. *)

Module Re.

Inductive regex : Type :=
| Lit (c : ascii)              (* a literal character *)
| Cls (p : ascii -> bool)      (* a character class [[...]] *)
| Plus (p : ascii -> bool)     (* [[...]+], greedy *)
| Cat (r1 r2 : regex)          (* concatenation *)
| Opt (r : regex)              (* [(?:r)?], greedy *)
| Grp (r : regex).             (* the capturing group 1 *)

(** [cont] receives the rest of the input and the current capture. *)
Definition cont : Type := string -> option string -> option (option string).

(** Zero or more characters of the class: as many as possible first, one
    fewer each time the continuation fails. *)
Fixpoint star (p : ascii -> bool) (s : string) (cap : option string) (k : cont)
  : option (option string) :=
  match s with
  | String c s' =>
      if p c then
        match star p s' cap k with
        | Some m => Some m
        | None => k s cap
        end
      else k s cap
  | EmptyString => k s cap
  end.

(** The part of [s] consumed when [s'] is what remains of it. *)
Definition consumed (s s' : string) : string :=
  String.substring 0 (String.length s - String.length s') s.
Arguments consumed : simpl never.

Fixpoint exec (r : regex) (s : string) (cap : option string) (k : cont)
  : option (option string) :=
  match r with
  | Lit c =>
      match s with
      | String c' s' => if Ascii.eqb c c' then k s' cap else None
      | EmptyString => None
      end
  | Cls p =>
      match s with
      | String c' s' => if p c' then k s' cap else None
      | EmptyString => None
      end
  | Plus p =>
      match s with
      | String c' s' => if p c' then star p s' cap k else None
      | EmptyString => None
      end
  | Cat r1 r2 => exec r1 s cap (fun s' cap' => exec r2 s' cap' k)
  | Opt r1 =>
      match exec r1 s cap k with
      | Some m => Some m
      | None => k s cap
      end
  | Grp r1 => exec r1 s cap (fun s' _ => k s' (Some (consumed s s')))
  end.

(** [re.match(r, s)]: a match at the start of [s]; the result is
    [group(1)] of the match object. *)
Definition match_here (r : regex) (s : string) : option (option string) :=
  exec r s None (fun _ cap => Some cap).

(** [re.search(r, s)]: the first start position with a match. *)
Fixpoint search (r : regex) (s : string) : option (option string) :=
  match match_here r s with
  | Some m => Some m
  | None =>
      match s with
      | String _ s' => search r s'
      | EmptyString => None
      end
  end.

Definition in_range (lo hi c : ascii) : bool :=
  (N_of_ascii lo <=? N_of_ascii c)%N && (N_of_ascii c <=? N_of_ascii hi)%N.

(** [[A-Z0-9]] *)
Definition upper_or_digit (c : ascii) : bool :=
  in_range "A" "Z" c || in_range "0" "9" c.

(** [[^>]] *)
Definition not_gt (c : ascii) : bool := negb (Ascii.eqb c ">").

(** [[UW]] *)
Definition u_or_w (c : ascii) : bool := Ascii.eqb c "U" || Ascii.eqb c "W".

(** [r"<@([A-Z0-9]+)(?:\|[^>]+)?>"] *)
Definition canonical_mention : regex :=
  Cat (Lit "<") (Cat (Lit "@") (Cat (Grp (Plus upper_or_digit))
    (Cat (Opt (Cat (Lit "|") (Plus not_gt))) (Lit ">")))).

(** [r"@([UW][A-Z0-9]+)"] *)
Definition loose_mention : regex :=
  Cat (Lit "@") (Grp (Cat (Cls u_or_w) (Plus upper_or_digit))).

End Re.


(** ** The database: tables [matches] and [results] *)

Module Db.

(** A row of [matches]; [id] is the primary key. *)
Record Match : Type := {
  m_id : string;
  m_challenger : string;
  m_opponent : string;
  m_channel : string;
  m_created_at : Z
}.

(** A row of [results] (the serial [id] column is left out). *)
Record Result : Type := {
  r_match_id : string;
  r_challenger : string;
  r_opponent : string;
  r_challenger_score : Z;
  r_opponent_score : Z;
  r_winner : option string;
  r_channel : string;
  r_submitted_by : string;
  r_submitted_at : Z
}.

(** [matches] is keyed by its primary key; [results] is a log, oldest
    row first. *)
Record t : Type := {
  matches : gmap string Match;
  results : list Result
}.

Definition empty : t := {| matches := ∅; results := [] |}.

(** [INSERT INTO results ... VALUES ...] *)
Definition insert_result (r : Result) (db : t) : t :=
  {| matches := matches db; results := results db ++ [r] |}.

(** [INSERT INTO matches ... ON CONFLICT (id) DO UPDATE SET ...] *)
Definition upsert_match (m : Match) (db : t) : t :=
  {| matches := <[m_id m := m]> (matches db); results := results db |}.

(** [SELECT ... FROM matches WHERE id = :id], first row *)
Definition select_match (match_id : string) (db : t) : option Match :=
  matches db !! match_id.

(** [DELETE FROM matches WHERE id = :id] *)
Definition delete_match (match_id : string) (db : t) : t :=
  {| matches := delete match_id (matches db); results := results db |}.

(** The rows of [results] that belong to a match id. *)
Definition results_of (match_id : string) (db : t) : list Result :=
  filter (fun r => r_match_id r = match_id) (results db).

Inductive Statement : Type :=
| InsertResult (r : Result)
| UpsertMatch (m : Match)
| SelectMatch (match_id : string) (row : option Match)
| DeleteMatch (match_id : string).

End Db.

(** ** The interpreter and the database engine *)

Record Runtime : Type := {
  py_int : string -> option Z;     (* [int(s)]; [None] is [ValueError] *)
  py_strip : string -> string;     (* [s.strip()] *)
  integer_ok : Z -> bool           (* the number fits an [INTEGER] column *)
}.

(** ** The chat platform *)

Module Slack.

(** The exceptions that travel through the handlers. [OtherError] is any
    exception of the Web client that is not a [SlackApiError];
    [DatabaseError] is what the driver raises for a number that does not
    fit its column. *)
Inductive Exn : Type :=
| ValueError
| KeyError
| SlackApiError (error : option string)   (* [e.response.data.get("error")] *)
| OtherError
| DatabaseError.

Definition is_SlackApiError (e : Exn) : bool :=
  match e with SlackApiError _ => true | _ => false end.

Definition is_ValueError (e : Exn) : bool :=
  match e with ValueError => true | _ => false end.

(** [except Exception] *)
Definition is_Exception (e : Exn) : bool := true.

(** Why a challenge could not be posted (the three texts of [msg] in
    [handle_pick_opponent]). *)
Inductive Problem : Type :=
| NotInChannel
| MissingScope
| PostError (err : option string).

(** The messages the bot renders. *)
Inductive Message : Type :=
| Usage                                   (* "Try `/pingpong challenge @someone`" *)
| Challenge (challenger opponent match_id : string)
    (* "... has challenged ..." with buttons Accept / Decline, both of
       value [match_id] *)
| MatchNotFound                           (* "Match not found or expired." *)
| MatchAccepted (challenger opponent match_id : string)
    (* "Match accepted! ..." with a button Submit Score of value [match_id] *)
| MatchDeclined                           (* "Match declined." *)
| ScoreMatchNotFound                      (* "Sorry, I couldn't find that match. ..." *)
| MatchResult (challenger opponent : string) (challenger_score opponent_score : Z)
    (winner_line : option string)         (* [None] is "Tie game" *)
| ScoresRecordedDM (err : option string) (challenger_score opponent_score : Z)
    (match_id : string)
    (* "I couldn't post the match result to the channel (error: ...), but
       your scores were recorded as ... for match ..." *)
| ContextLost                             (* "Score recorded (match context lost)." *)
| PostProblem (p : Problem).

Inductive Label : Type :=
| YourScore
| ScoreFor (user : string)
| OpponentsScore.

(** The modals. *)
Inductive View : Type :=
| PickOpponent (private_metadata : string)      (* callback [pingpong_pick_opponent] *)
| SubmitScore (private_metadata : string) (challenger opponent : string)
    (your_label opponent_label : Label)         (* callback [submit_score] *)
| ProblemView (p : Problem).

(** The methods called on [client]. *)
Inductive Call : Type :=
| views_open (trigger_id : string) (view : View)
| views_update (view_id : string) (view : View)
| conversations_join (channel : string)
| conversations_open (users : string)
| chat_postMessage (channel : string) (msg : Message).

(** What a call does: it returns a response, of which only
    [response["channel"]["id"]] is ever read, or it raises. *)
Inductive Reply : Type :=
| Return (channel_id : option string)
| Raise (e : Exn).

(** Everything a handler does that is visible outside of it, in order. *)
Inductive Event : Type :=
| Ack                                  (* [ack()] *)
| AckErrors (block_id : string)        (* [ack(response_action="errors", errors={block_id: ...})] *)
| Respond (in_channel : bool) (msg : Message)
| Now (t : Z)                          (* [int(time.time())] *)
| Sql (stmt : Db.Statement)
| Api (c : Call) (r : Reply).

(** The surroundings of the bot: the platform answers a call, and the
    clock a reading, as a function of everything that happened before. *)
Record Env : Type := {
  client : list Event -> Call -> Reply;
  clock : list Event -> Z
}.

End Slack.

(** ** The handlers *)

Module Bot.
Import Db Slack.

(** The state of a run: the database and the events so far. *)
Record World : Type := {
  db : Db.t;
  trace : list Event
}.

Inductive Res (A : Type) : Type :=
| Val (a : A)
| Exc (e : Exn).
Arguments Val {A} a.
Arguments Exc {A} e.

(** A computation reads the surroundings, changes the world and returns
    or raises. *)
Definition M (A : Type) : Type := Env -> World -> Res A * World.

Definition ret {A} (a : A) : M A := fun _ w => (Val a, w).

Definition raise {A} (e : Exn) : M A := fun _ w => (Exc e, w).

Definition bind {A B} (m : M A) (k : A -> M B) : M B :=
  fun env w =>
    match m env w with
    | (Val a, w') => k a env w'
    | (Exc e, w') => (Exc e, w')
    end.

Notation "'let*' x ':=' m 'in' k" := (bind m (fun x => k))
  (at level 10, x pattern, m at level 100, k at level 200).
Notation "m ';;' k" := (bind m (fun _ => k))
  (at level 100, k at level 200, right associativity).

(** [try: m except E as e: h e], where [catches] decides [isinstance(e, E)]. *)
Definition try_except {A} (m : M A) (catches : Exn -> bool) (h : Exn -> M A) : M A :=
  fun env w =>
    match m env w with
    | (Exc e, w') => if catches e then h e env w' else (Exc e, w')
    | r => r
    end.

Definition log (e : Event) : M unit :=
  fun _ w => (Val tt, {| db := db w; trace := trace w ++ [e] |}).

Definition ack : M unit := log Ack.

Definition ack_errors (block_id : string) : M unit := log (AckErrors block_id).

Definition respond (in_channel : bool) (msg : Message) : M unit :=
  log (Respond in_channel msg).

(** [int(time.time())] *)
Definition time_time : M Z :=
  fun env w =>
    let t := clock env (trace w) in
    (Val t, {| db := db w; trace := trace w ++ [Now t] |}).

(** A method of [client]. *)
Definition call (c : Call) : M (option string) :=
  fun env w =>
    let r := client env (trace w) c in
    let w' := {| db := db w; trace := trace w ++ [Api c r] |} in
    match r with
    | Return d => (Val d, w')
    | Raise e => (Exc e, w')
    end.

(** [response["channel"]["id"]] *)
Definition channel_id_of (response : option string) : M string :=
  match response with
  | Some c => ret c
  | None => raise KeyError
  end.

(** [int(s)] *)
Definition int (rt : Runtime) (s : string) : M Z :=
  match py_int rt s with
  | Some n => ret n
  | None => raise ValueError
  end.

(** The insert raises, and writes nothing, when a score does not fit its
    column. *)
Definition record_result (rt : Runtime) (match_id challenger opponent : string)
    (challenger_score opponent_score : Z) (winner : option string)
    (channel submitted_by : string) : M unit :=
  let* submitted_at := time_time in
  if integer_ok rt challenger_score && integer_ok rt opponent_score then
    fun _ w =>
      let r := {| r_match_id := match_id; r_challenger := challenger;
                  r_opponent := opponent; r_challenger_score := challenger_score;
                  r_opponent_score := opponent_score; r_winner := winner;
                  r_channel := channel; r_submitted_by := submitted_by;
                  r_submitted_at := submitted_at |} in
      (Val tt, {| db := insert_result r (db w);
                  trace := trace w ++ [Sql (InsertResult r)] |})
  else raise DatabaseError.

Definition create_match (match_id challenger opponent channel : string) : M unit :=
  let* created_at := time_time in
  fun _ w =>
    let m := {| m_id := match_id; m_challenger := challenger;
                m_opponent := opponent; m_channel := channel;
                m_created_at := created_at |} in
    (Val tt, {| db := upsert_match m (db w);
                trace := trace w ++ [Sql (UpsertMatch m)] |}).

Definition get_match (match_id : string) : M (option Match) :=
  fun _ w =>
    let row := select_match match_id (db w) in
    (Val row, {| db := db w; trace := trace w ++ [Sql (SelectMatch match_id row)] |}).

Definition delete_match (match_id : string) : M unit :=
  fun _ w =>
    (Val tt, {| db := Db.delete_match match_id (db w);
                trace := trace w ++ [Sql (DeleteMatch match_id)] |}).

(** Truth value of a [str | None]. *)
Definition truthy (s : option string) : bool :=
  match s with
  | Some (String _ _) => true
  | _ => false
  end.

(** The slash command [/pingpong]. *)
Record Command : Type := {
  text : string;
  user_id : string;
  channel_id : string;
  trigger_id : string
}.

(** A click on a button: [body["actions"][0]["value"]], [body["user"]["id"]]
    and [body["trigger_id"]]. *)
Record Action : Type := {
  value : string;
  action_user : string;
  action_trigger_id : string
}.

(** The submission of the opponent picker. *)
Record PickSubmission : Type := {
  pick_private_metadata : string;
  pick_view_id : string;
  selected_user : string
}.

(** The submission of the score form. *)
Record ScoreSubmission : Type := {
  score_private_metadata : string;
  score_input_challenger : string;
  score_input_opponent : string;
  score_user : string
}.

(** [f"match_{user_id}_{int(time.time())}"] *)
Definition format_match_id (user : string) (t : Z) : string :=
  "match_" +:+ user +:+ "_" +:+ pretty t.

(** [f"{channel_id}|{user_id}"] *)
Definition format_private_metadata (channel user : string) : string :=
  channel +:+ "|" +:+ user.

Arguments format_match_id : simpl never.
Arguments format_private_metadata : simpl never.

(** The opponent named in a challenge text (lines 166 to 178 of
    [handle_pingpong]). *)
Definition resolve_opponent (text : string) : option string :=
  match Re.search Re.canonical_mention text with
  | Some m => m
  | None =>
      match Re.search Re.loose_mention text with
      | Some m => m
      | None => None
      end
  end.

Arguments resolve_opponent : simpl never.

Definition handle_pingpong (rt : Runtime) (command : Command) : M unit :=
  ack ;;
  let text := py_strip rt (text command) in
  let user_id := user_id command in
  let channel_id := channel_id command in
  if PyStr.startswith "challenge" text then
    let opponent_id := resolve_opponent text in
    if negb (truthy opponent_id) then
      call (views_open (trigger_id command)
              (PickOpponent (format_private_metadata channel_id user_id))) ;;
      ret tt
    else
      let opponent_id := default "" opponent_id in
      let* t := time_time in
      let match_id := format_match_id user_id t in
      create_match match_id user_id opponent_id channel_id ;;
      respond true (Challenge user_id opponent_id match_id)
  else
    respond false Usage.

(** [channel_id, challenger_id = private_metadata.split("|", 1)] *)
Definition unpack_private_metadata (private_metadata : string) : M (string * string) :=
  match PyStr.split1 "|" private_metadata with
  | [channel_id; challenger_id] => ret (channel_id, challenger_id)
  | _ => raise ValueError
  end.

(** The text of [msg] for an error code. *)
Definition problem_of (err : option string) : Problem :=
  if decide (err = Some "not_in_channel") then NotInChannel
  else if decide (err = Some "missing_scope") then MissingScope
  else PostError err.

(** [(e.response.data or {}).get("error")] *)
Definition error_of (e : Exn) : option string :=
  match e with
  | SlackApiError err => err
  | _ => None
  end.

(** [client.conversations_join(channel=...)], a [SlackApiError] ignored. *)
Definition join_if_possible (channel : string) : M unit :=
  try_except (call (conversations_join channel) ;; ret tt)
    is_SlackApiError (fun _ => ret tt).

Definition handle_pick_opponent (body : PickSubmission) : M unit :=
  ack ;;
  let* parts := unpack_private_metadata (pick_private_metadata body) in
  let '(channel_id, challenger_id) := parts in
  let opponent_id := selected_user body in
  let* t := time_time in
  let match_id := format_match_id challenger_id t in
  create_match match_id challenger_id opponent_id channel_id ;;
  try_except
    (join_if_possible channel_id ;;
     call (chat_postMessage channel_id
             (Challenge challenger_id opponent_id match_id)) ;;
     ret tt)
    is_SlackApiError
    (fun e =>
       let err := error_of e in
       let msg := problem_of err in
       try_except
         (call (views_update (pick_view_id body) (ProblemView msg)) ;; ret tt)
         is_Exception
         (fun _ =>
            try_except
              (let* dm := call (conversations_open challenger_id) in
               let* dm_channel := channel_id_of dm in
               call (chat_postMessage dm_channel (PostProblem msg)) ;;
               ret tt)
              is_Exception
              (fun _ => ret tt))).

Definition accept_match (body : Action) : M unit :=
  ack ;;
  let match_id := value body in
  let* match_data := get_match match_id in
  match match_data with
  | None => respond false MatchNotFound
  | Some match_data =>
      respond false
        (MatchAccepted (m_challenger match_data) (m_opponent match_data) match_id)
  end.

Definition decline_match (body : Action) : M unit :=
  ack ;;
  let match_id := value body in
  delete_match match_id ;;
  respond false MatchDeclined.

Definition open_score_modal (body : Action) : M unit :=
  ack ;;
  let match_id := value body in
  let* match_data := get_match match_id in
  match match_data with
  | None =>
      call (chat_postMessage (action_user body) ScoreMatchNotFound) ;;
      ret tt
  | Some match_data =>
      let submitting_user := action_user body in
      let '(your_label, opponent_label) :=
        if decide (submitting_user = m_challenger match_data) then
          (YourScore, ScoreFor (m_opponent match_data))
        else if decide (submitting_user = m_opponent match_data) then
          (YourScore, ScoreFor (m_challenger match_data))
        else
          (YourScore, OpponentsScore) in
      call (views_open (action_trigger_id body)
              (SubmitScore match_id (m_challenger match_data)
                 (m_opponent match_data) your_label opponent_label)) ;;
      ret tt
  end.

(** The winner of a match, or [None] for a tie (lines 512 to 517 of
    [handle_score_submission]). *)
Definition determine_winner (match_data : Match)
    (challenger_score opponent_score : Z) : option string :=
  if challenger_score >? opponent_score then Some (m_challenger match_data)
  else if opponent_score >? challenger_score then Some (m_opponent match_data)
  else None.

(** [winner_line]: the winner's line, or the tie line when [winner] is
    falsy. *)
Definition winner_line_of (winner : option string) : option string :=
  if truthy winner then winner else None.

Definition handle_score_submission (rt : Runtime) (body : ScoreSubmission) : M unit :=
  ack ;;
  let challenger_score_raw := score_input_challenger body in
  let opponent_score_raw := score_input_opponent body in
  let* scores :=
    try_except
      (let* challenger_score := int rt (py_strip rt challenger_score_raw) in
       let* opponent_score := int rt (py_strip rt opponent_score_raw) in
       ret (Some (challenger_score, opponent_score)))
      is_ValueError
      (fun _ => ack_errors "score_block_challenger" ;; ret None) in
  match scores with
  | None => ret tt
  | Some (challenger_score, opponent_score) =>
      let match_id := score_private_metadata body in
      let* match_data := get_match match_id in
      match match_data with
      | Some match_data =>
          let channel := m_channel match_data in
          try_except
            (join_if_possible channel ;;
             let winner := determine_winner match_data challenger_score opponent_score in
             let submitted_by := score_user body in
             record_result rt match_id (m_challenger match_data)
               (m_opponent match_data) challenger_score opponent_score winner
               channel submitted_by ;;
             call (chat_postMessage channel
                     (MatchResult (m_challenger match_data) (m_opponent match_data)
                        challenger_score opponent_score (winner_line_of winner))) ;;
             delete_match match_id)
            is_SlackApiError
            (fun e =>
               let err := error_of e in
               let user_id := score_user body in
               try_except
                 (let* dm := call (conversations_open user_id) in
                  let* dm_channel := channel_id_of dm in
                  call (chat_postMessage dm_channel
                          (ScoresRecordedDM err challenger_score opponent_score match_id)) ;;
                  ret tt)
                 is_Exception
                 (fun _ => ret tt))
      | None =>
          let user_id := score_user body in
          call (chat_postMessage user_id ContextLost) ;;
          ret tt
      end
  end.

End Bot.

Import Db Slack Bot.


(** ** Mention tokens

    What the comments of [handle_pingpong] call a mention, stated on the
    text itself and independently of the matcher: [<@U123ABC>],
    [<@U123ABC|name>] and [@U123ABC]. *)

Module Mention.

Fixpoint all_chars (p : ascii -> bool) (s : string) : bool :=
  match s with
  | EmptyString => true
  | String c s' => p c && all_chars p s'
  end.

Fixpoint take_while (p : ascii -> bool) (s : string) : string :=
  match s with
  | String c s' => if p c then String c (take_while p s') else EmptyString
  | EmptyString => EmptyString
  end.

Fixpoint drop_while (p : ascii -> bool) (s : string) : string :=
  match s with
  | String c s' => if p c then drop_while p s' else s
  | EmptyString => EmptyString
  end.

(** [s] does not go on with a character of the class. *)
Definition stops (p : ascii -> bool) (s : string) : Prop :=
  match s with
  | String c _ => p c = false
  | EmptyString => True
  end.

(** An identifier code: one or more of [A-Z0-9]. *)
Definition is_code (id : string) : Prop :=
  id <> "" /\ all_chars Re.upper_or_digit id = true.

(** [canonical tok id]: [tok] is [<@id>] or [<@id|name>]. *)
Inductive canonical : string -> string -> Prop :=
| canonical_bare id :
    is_code id -> canonical ("<@" +:+ id +:+ ">") id
| canonical_named id name :
    is_code id -> name <> "" -> all_chars Re.not_gt name = true ->
    canonical ("<@" +:+ id +:+ "|" +:+ name +:+ ">") id.

(** [loose tok id]: [tok] is [@id], where [id] is [U] or [W] and a code. *)
Inductive loose : string -> string -> Prop :=
| loose_intro c code :
    Re.u_or_w c = true -> is_code code ->
    loose ("@" +:+ String c code) (String c code).

Definition starts_with (token : string -> string -> Prop) (s : string) : Prop :=
  exists tok id rest, token tok id /\ s = tok +:+ rest.

(** No token starts inside [pre] when [pre] is followed by [s]. *)
Definition none_before (token : string -> string -> Prop) (pre s : string) : Prop :=
  forall p1 p2, pre = p1 +:+ p2 -> p2 <> "" -> ~ starts_with token (p2 +:+ s).

(** No token starts anywhere in [text]. *)
Definition absent (token : string -> string -> Prop) (text : string) : Prop :=
  forall p1 p2, text = p1 +:+ p2 -> ~ starts_with token p2.

(** No match of [r] starts inside [pre] when [pre] is followed by [s]. *)
Fixpoint free_of (r : Re.regex) (pre s : string) : bool :=
  match pre with
  | EmptyString => true
  | String _ pre' =>
      match Re.match_here r (pre +:+ s) with
      | Some _ => false
      | None => free_of r pre' s
      end
  end.

End Mention.

(** ** Vocabulary of the statements *)

(** The two raw scores of a submission parse to [a] and [b]. *)
Definition scores_parse (rt : Runtime) (body : ScoreSubmission) (a b : Z) : Prop :=
  py_int rt (py_strip rt (score_input_challenger body)) = Some a /\
  py_int rt (py_strip rt (score_input_opponent body)) = Some b.

(** Both scores fit the [INTEGER] columns of [results]. *)
Definition scores_fit (rt : Runtime) (a b : Z) : Prop :=
  integer_ok rt a = true /\ integer_ok rt b = true.




(** How a handler ends when its last statement is a call. *)
Definition res_of_reply (r : Reply) : Res unit :=
  match r with
  | Return _ => Val tt
  | Raise e => Exc e
  end.

(** Joining [channel] returns or fails with a [SlackApiError], the failure
    that [join_if_possible] ignores. *)
Definition join_tolerated (env : Env) (channel : string) : Prop :=
  forall tr e, client env tr (conversations_join channel) = Raise e ->
               is_SlackApiError e = true.

(** The row written for a submission of [a] and [b] by [u] at [t]. *)
Definition recorded (match_id : string) (m : Match) (a b : Z) (u : string) (t : Z)
  : Result :=
  {| r_match_id := match_id; r_challenger := m_challenger m;
     r_opponent := m_opponent m; r_challenger_score := a;
     r_opponent_score := b; r_winner := determine_winner m a b;
     r_channel := m_channel m; r_submitted_by := u; r_submitted_at := t |}.

(** Posting to [channel] always returns, or always raises. *)
Definition post_returns (env : Env) (channel : string) : Prop :=
  forall tr msg, exists d, client env tr (chat_postMessage channel msg) = Return d.

Definition post_raises (env : Env) (channel : string) : Prop :=
  forall tr msg, exists e, client env tr (chat_postMessage channel msg) = Raise e.

Definition is_sql (e : Event) : bool :=
  match e with Sql _ => true | _ => false end.

(** The match-creation step of a challenge: the id is made from the
    challenger and a clock reading, and the row is upserted. [tail] is what
    the handler does afterwards. *)
Definition creation_step (challenger opponent channel : string)
    (w w' : World) (tail : list Event) : Prop :=
  exists t t',
    let m := {| m_id := format_match_id challenger t; m_challenger := challenger;
                m_opponent := opponent; m_channel := channel;
                m_created_at := t' |} in
    db w' = upsert_match m (db w) /\
    trace w' = trace w ++ [Ack; Now t; Now t'; Sql (UpsertMatch m)] ++ tail.

(** ** Scenarios *)

Module Scenario.

Definition start : World := {| db := Db.empty; trace := [] |}.

(** The interpreter on ASCII text and the default engine, whose integers
    have 64 bits. *)
Definition cpython : Runtime :=
  {| py_int := PyStr.int;
     py_strip := PyStr.strip;
     integer_ok := fun z => (- 2 ^ 63 <=? z) && (z <? 2 ^ 63) |}.

(** Every call succeeds; all clock readings fall in one second. *)
Definition calm : Env :=
  {| client := fun _ _ => Return (Some "D024BE91L");
     clock := fun _ => 1700000000 |}.

(** The bot cannot post to the channel [C1]: [chat.postMessage] answers
    [not_in_channel] there; every other call succeeds. *)
Definition not_in_c1 : Env :=
  {| client := fun _ c =>
       match c with
       | chat_postMessage channel _ =>
           if decide (channel = "C1")
           then Raise (SlackApiError (Some "not_in_channel"))
           else Return None
       | conversations_join channel =>
           if decide (channel = "C1")
           then Raise (SlackApiError (Some "method_not_supported_for_channel_type"))
           else Return None
       | _ => Return (Some "D024BE91L")
       end;
     clock := fun _ => 1700000000 |}.

(** The request to join a channel does not reach the platform: the Web
    client raises an error of the transport, which is no [SlackApiError];
    every other call succeeds. *)
Definition join_unreachable : Env :=
  {| client := fun _ c =>
       match c with
       | conversations_join _ => Raise OtherError
       | _ => Return (Some "D024BE91L")
       end;
     clock := fun _ => 1700000000 |}.

(** [U2] challenged [U1] in [C1]. *)
Definition u2_vs_u1 : Match :=
  {| m_id := "match_U2_1699999000"; m_challenger := "U2"; m_opponent := "U1";
     m_channel := "C1"; m_created_at := 1699999000 |}.

Definition pending (m : Match) : World :=
  {| db := upsert_match m Db.empty; trace := [] |}.

Definition submission (m : Match) (challenger_score opponent_score user : string)
  : ScoreSubmission :=
  {| score_private_metadata := m_id m;
     score_input_challenger := challenger_score;
     score_input_opponent := opponent_score;
     score_user := user |}.

Definition click (m : Match) (user : string) : Action :=
  {| value := m_id m; action_user := user; action_trigger_id := "1337.42.abc" |}.

Definition challenge (text user channel : string) : Command :=
  {| text := text; user_id := user; channel_id := channel;
     trigger_id := "1337.42.abc" |}.

Definition pick (private_metadata opponent : string) : PickSubmission :=
  {| pick_private_metadata := private_metadata; pick_view_id := "V1";
     selected_user := opponent |}.

End Scenario.

(** ** Interactions and runs

    The routes registered on [bolt_app]: one handler for the command, one
    per view callback and one per button action. *)
Inductive Interaction : Type :=
| SlashPingpong (command : Command)          (* command [/pingpong] *)
| ViewPickOpponent (body : PickSubmission)   (* view [pingpong_pick_opponent] *)
| ActionAcceptMatch (body : Action)          (* action [accept_match] *)
| ActionDeclineMatch (body : Action)         (* action [decline_match] *)
| ActionOpenScoreModal (body : Action)       (* action [open_score_modal] *)
| ViewSubmitScore (body : ScoreSubmission).  (* view [submit_score] *)

Definition handler_of (rt : Runtime) (i : Interaction) : M unit :=
  match i with
  | SlashPingpong command => handle_pingpong rt command
  | ViewPickOpponent body => handle_pick_opponent body
  | ActionAcceptMatch body => accept_match body
  | ActionDeclineMatch body => decline_match body
  | ActionOpenScoreModal body => open_score_modal body
  | ViewSubmitScore body => handle_score_submission rt body
  end.

(** Interactions handled one after the other, each in its own
    surroundings.  An exception ends a handler, not the run: the next
    interaction starts from the world the failed one left. *)
Fixpoint run_all (rt : Runtime) (steps : list (Interaction * Env)) (w : World)
  : World :=
  match steps with
  | [] => w
  | (i, env) :: rest => run_all rt rest (snd (handler_of rt i env w))
  end.

(** The five things an interaction can do to the database. *)
Inductive db_step (d : Db.t) : Db.t -> Prop :=
| step_none : db_step d d
| step_create m : db_step d (upsert_match m d)
| step_decline k : db_step d (Db.delete_match k d)
| step_record k m a b u t :
    select_match k d = Some m ->
    db_step d (insert_result (recorded k m a b u t) d)
| step_score k m a b u t :
    select_match k d = Some m ->
    db_step d (Db.delete_match k (insert_result (recorded k m a b u t) d)).

(** The winner of a result row agrees with its two scores and its two
    players. *)
Definition sound_winner (r : Result) : Prop :=
  (r_winner r = None <-> r_challenger_score r = r_opponent_score r) /\
  (r_challenger_score r > r_opponent_score r -> r_winner r = Some (r_challenger r)) /\
  (r_opponent_score r > r_challenger_score r -> r_winner r = Some (r_opponent r)).

(** Posting to [channel] returns or fails with a [SlackApiError]. *)
Definition post_tolerated (env : Env) (channel : string) : Prop :=
  forall tr msg e, client env tr (chat_postMessage channel msg) = Raise e ->
                   is_SlackApiError e = true.

(** * Strings and the matcher *)

Section StringFacts.

Lemma app_cons c s t : String c s +:+ t = String c (s +:+ t).
Proof. reflexivity. Qed.

Lemma app_empty_l s : "" +:+ s = s.
Proof. reflexivity. Qed.

Lemma app_empty_r s : s +:+ "" = s.
Proof. induction s as [|c s IH]; [reflexivity|]. rewrite app_cons, IH. reflexivity. Qed.

Lemma app_assoc_s s t u : (s +:+ t) +:+ u = s +:+ (t +:+ u).
Proof.
  induction s as [|c s IH]; [reflexivity|].
  rewrite !app_cons, IH. reflexivity.
Qed.

Lemma length_app_s s t : String.length (s +:+ t) = (String.length s + String.length t)%nat.
Proof.
  induction s as [|c s IH]; [reflexivity|].
  rewrite app_cons. simpl. rewrite IH. reflexivity.
Qed.

Lemma substring_app_l s t : String.substring 0 (String.length s) (s +:+ t) = s.
Proof.
  induction s as [|c s IH].
  - rewrite app_empty_l. simpl. destruct t; reflexivity.
  - rewrite app_cons. simpl. rewrite IH. reflexivity.
Qed.

Lemma consumed_app l r : Re.consumed (l +:+ r) r = l.
Proof.
  unfold Re.consumed. rewrite length_app_s.
  replace (String.length l + String.length r - String.length r)%nat
    with (String.length l) by lia.
  apply substring_app_l.
Qed.

Import Mention.

Lemma take_drop_while p s : take_while p s +:+ drop_while p s = s.
Proof.
  induction s as [|c s IH]; [reflexivity|].
  simpl. destruct (p c); [|reflexivity].
  rewrite app_cons, IH. reflexivity.
Qed.

Lemma all_chars_take_while p s : all_chars p (take_while p s) = true.
Proof.
  induction s as [|c s IH]; [reflexivity|].
  simpl. destruct (p c) eqn:E; [|reflexivity].
  simpl. rewrite E, IH. reflexivity.
Qed.

Lemma stops_drop_while p s : stops p (drop_while p s).
Proof.
  induction s as [|c s IH]; [exact I|].
  simpl. destruct (p c) eqn:E; [exact IH|exact E].
Qed.

Lemma drop_while_stops p s : stops p s -> drop_while p s = s.
Proof. destruct s as [|c s]; [reflexivity|]. simpl. intros ->. reflexivity. Qed.

Lemma drop_while_app p l r :
  all_chars p l = true -> stops p r -> drop_while p (l +:+ r) = r.
Proof.
  induction l as [|c l IH]; intros Hl Hr.
  - rewrite app_empty_l. apply drop_while_stops, Hr.
  - simpl in Hl. apply andb_prop in Hl as [Hc Hl].
    rewrite app_cons. simpl. rewrite Hc. apply IH; assumption.
Qed.

End StringFacts.

Section RegexFacts.

Import Mention.

(** Greedy: when the continuation accepts what follows the longest run,
    that is the answer. *)
Lemma star_greedy p s cap k m :
  k (drop_while p s) cap = Some m -> Re.star p s cap k = Some m.
Proof.
  induction s as [|c s IH]; simpl; [tauto|].
  destruct (p c); [|tauto].
  intros H. rewrite (IH H). reflexivity.
Qed.

(** When the continuation refuses every input that goes on with the class,
    giving characters back never helps. *)
Lemma star_longest p s cap k :
  (forall c s' cap', p c = true -> k (String c s') cap' = None) ->
  Re.star p s cap k = k (drop_while p s) cap.
Proof.
  intros Hk. induction s as [|c s IH]; simpl; [reflexivity|].
  destruct (p c) eqn:E; [|reflexivity].
  rewrite IH. destruct (k (drop_while p s) cap); [reflexivity|].
  apply Hk, E.
Qed.

Lemma search_first r pre s m :
  Re.match_here r s = Some m ->
  (forall p1 p2, pre = p1 +:+ p2 -> p2 <> "" -> Re.match_here r (p2 +:+ s) = None) ->
  Re.search r (pre +:+ s) = Some m.
Proof.
  induction pre as [|c pre IH]; intros Hs Hpre.
  - rewrite app_empty_l. destruct s; simpl; rewrite Hs; reflexivity.
  - rewrite app_cons. simpl.
    rewrite <- app_cons, (Hpre "" (String c pre)) by (try reflexivity; discriminate).
    apply IH; [assumption|].
    intros p1 p2 -> Hp2. apply (Hpre (String c p1) p2); [reflexivity|assumption].
Qed.

Lemma search_none r s :
  (forall p1 p2, s = p1 +:+ p2 -> Re.match_here r p2 = None) ->
  Re.search r s = None.
Proof.
  induction s as [|c s IH]; intros H.
  - simpl. rewrite (H "" ""); reflexivity.
  - simpl. rewrite (H "" (String c s)) by reflexivity.
    apply IH. intros p1 p2 ->. apply (H (String c p1) p2). reflexivity.
Qed.

End RegexFacts.

Section MentionFacts.
Import Mention.


Lemma code_inv id :
  is_code id ->
  exists c rest, id = String c rest /\ Re.upper_or_digit c = true /\
                 all_chars Re.upper_or_digit rest = true.
Proof.
  intros [Hne Hall]. destruct id as [|c rest]; [congruence|].
  simpl in Hall. apply andb_prop in Hall as [? ?]. eauto.
Qed.

Lemma upper_or_digit_not_bar_gt c :
  Re.upper_or_digit c = true -> Ascii.eqb "|" c = false /\ Ascii.eqb ">" c = false.
Proof.
  intros H. split.
  - destruct (Ascii.eqb_spec "|" c) as [<-|]; [discriminate H|reflexivity].
  - destruct (Ascii.eqb_spec ">" c) as [<-|]; [discriminate H|reflexivity].
Qed.

Lemma canonical_here tok id post :
  canonical tok id ->
  Re.match_here Re.canonical_mention (tok +:+ post) = Some (Some id).
Proof.
  intros [id0 Hid | id0 name Hid Hname Hall].
  - destruct (code_inv _ Hid) as (c & rest & -> & Hc & Hrest).
    rewrite !app_assoc_s, !app_cons, app_empty_l.
    unfold Re.match_here, Re.canonical_mention. cbn. rewrite Hc.
    apply star_greedy.
    rewrite drop_while_app by (assumption || reflexivity).
    rewrite <- (app_cons c rest), consumed_app. reflexivity.
  - destruct (code_inv _ Hid) as (c & rest & -> & Hc & Hrest).
    destruct name as [|d name]; [congruence|].
    simpl in Hall. apply andb_prop in Hall as [Hd Hall].
    rewrite !app_assoc_s, !app_cons, !app_empty_l.
    unfold Re.match_here, Re.canonical_mention. cbn. rewrite Hc.
    apply star_greedy.
    rewrite drop_while_app by (assumption || reflexivity).
    rewrite <- (app_cons c rest), consumed_app. cbn. rewrite Hd.
    rewrite (star_greedy _ _ _ _ (Some (String c rest))); [reflexivity|].
    rewrite drop_while_app by (assumption || reflexivity).
    reflexivity.
Qed.

Lemma canonical_here_inv s m :
  Re.match_here Re.canonical_mention s = Some m -> starts_with canonical s.
Proof.
  unfold Re.match_here, Re.canonical_mention. cbn -[Ascii.eqb].
  destruct s as [|c0 s]; [discriminate|].
  destruct (Ascii.eqb_spec "<" c0) as [<-|]; [|discriminate].
  destruct s as [|c1 s]; [discriminate|].
  destruct (Ascii.eqb_spec "@" c1) as [<-|]; [|discriminate].
  destruct s as [|c s]; [discriminate|].
  destruct (Re.upper_or_digit c) eqn:Hc; [|discriminate].
  rewrite star_longest.
  2:{ intros c' s' cap' Hc'. cbn -[Ascii.eqb].
      destruct (upper_or_digit_not_bar_gt c' Hc') as [-> ->]. reflexivity. }
  pose proof (take_drop_while Re.upper_or_digit s) as Hs.
  pose proof (all_chars_take_while Re.upper_or_digit s) as Hid.
  set (id := String c (take_while Re.upper_or_digit s)).
  assert (is_code id) as Hcode.
  { split; [discriminate|]. simpl. rewrite Hc. exact Hid. }
  destruct (drop_while Re.upper_or_digit s) as [|d r] eqn:Hr; [discriminate|].
  cbn -[Ascii.eqb].
  destruct (Ascii.eqb_spec "|" d) as [<-|Hd].
  - destruct r as [|n r]; [discriminate|]. cbn -[Ascii.eqb].
    destruct (Re.not_gt n) eqn:Hn; [|discriminate].
    rewrite star_longest.
    2:{ intros c' s' cap' Hc'. cbn -[Ascii.eqb]. unfold Re.not_gt in Hc'.
        rewrite Ascii.eqb_sym. destruct (Ascii.eqb c' ">"); [discriminate|reflexivity]. }
    pose proof (take_drop_while Re.not_gt r) as Hr2.
    pose proof (all_chars_take_while Re.not_gt r) as Hname.
    destruct (drop_while Re.not_gt r) as [|g rest] eqn:Hrest; cbn -[Ascii.eqb].
    + discriminate.
    + destruct (Ascii.eqb_spec ">" g) as [<-|]; [|discriminate].
      intros _.
      exists ("<@" +:+ id +:+ "|" +:+ String n (take_while Re.not_gt r) +:+ ">"), id, rest.
      split.
      * apply canonical_named; [assumption|discriminate|].
        simpl. rewrite Hn. exact Hname.
      * unfold id. rewrite !app_assoc_s, !app_cons, !app_empty_l.
        rewrite Hr2, Hs. reflexivity.
  - destruct (Ascii.eqb_spec ">" d) as [<-|]; [|discriminate].
    intros _.
    exists ("<@" +:+ id +:+ ">"), id, r.
    split; [apply canonical_bare; assumption|].
    unfold id. rewrite !app_assoc_s, !app_cons, !app_empty_l.
    rewrite Hs. reflexivity.
Qed.

Lemma loose_here c code post :
  Re.u_or_w c = true -> is_code code -> stops Re.upper_or_digit post ->
  Re.match_here Re.loose_mention ("@" +:+ String c code +:+ post)
  = Some (Some (String c code)).
Proof.
  intros Hc Hcode Hpost.
  destruct (code_inv _ Hcode) as (d & rest & -> & Hd & Hrest).
  rewrite !app_cons, app_empty_l.
  unfold Re.match_here, Re.loose_mention. cbn -[Ascii.eqb]. rewrite Hc, Hd.
  apply star_greedy.
  rewrite drop_while_app by assumption.
  rewrite <- !app_cons, consumed_app. reflexivity.
Qed.

Lemma loose_here_inv s m :
  Re.match_here Re.loose_mention s = Some m -> starts_with loose s.
Proof.
  unfold Re.match_here, Re.loose_mention. cbn -[Ascii.eqb].
  destruct s as [|c0 s]; [discriminate|].
  destruct (Ascii.eqb_spec "@" c0) as [<-|]; [|discriminate].
  destruct s as [|c s]; [discriminate|].
  destruct (Re.u_or_w c) eqn:Hc; [|discriminate].
  destruct s as [|d s]; [discriminate|].
  destruct (Re.upper_or_digit d) eqn:Hd; [|discriminate].
  intros _.
  exists ("@" +:+ String c (String d "")), (String c (String d "")), s.
  split; [|reflexivity].
  apply loose_intro; [assumption|].
  split; [discriminate|]. simpl. rewrite Hd. reflexivity.
Qed.

End MentionFacts.

(** ** The resolver *)

Section Resolver.
Import Mention.

Lemma match_here_none (token : string -> string -> Prop) r s :
  (forall s' m, Re.match_here r s' = Some m -> starts_with token s') ->
  ~ starts_with token s -> Re.match_here r s = None.
Proof.
  intros Hinv Hno. destruct (Re.match_here r s) eqn:E; [|reflexivity].
  destruct Hno. eapply Hinv, E.
Qed.

Lemma search_canonical_first pre tok id post :
  canonical tok id -> none_before canonical pre (tok +:+ post) ->
  Re.search Re.canonical_mention (pre +:+ tok +:+ post) = Some (Some id).
Proof.
  intros Htok Hfirst. apply search_first.
  - apply canonical_here, Htok.
  - intros p1 p2 Hpre Hp2.
    apply (match_here_none canonical); [apply canonical_here_inv|].
    apply (Hfirst p1 p2); assumption.
Qed.

Lemma search_canonical_absent text :
  absent canonical text -> Re.search Re.canonical_mention text = None.
Proof.
  intros Habs. apply search_none. intros p1 p2 Htext.
  apply (match_here_none canonical); [apply canonical_here_inv|].
  apply (Habs p1 p2 Htext).
Qed.

Lemma search_loose_first pre tok id post :
  loose tok id -> stops Re.upper_or_digit post ->
  none_before loose pre (tok +:+ post) ->
  Re.search Re.loose_mention (pre +:+ tok +:+ post) = Some (Some id).
Proof.
  intros Htok Hpost Hfirst. apply search_first.
  - destruct Htok as [c code Hc Hcode].
    rewrite app_assoc_s. apply loose_here; assumption.
  - intros p1 p2 Hpre Hp2.
    apply (match_here_none loose); [apply loose_here_inv|].
    apply (Hfirst p1 p2); assumption.
Qed.

Lemma search_loose_absent text :
  absent loose text -> Re.search Re.loose_mention text = None.
Proof.
  intros Habs. apply search_none. intros p1 p2 Htext.
  apply (match_here_none loose); [apply loose_here_inv|].
  apply (Habs p1 p2 Htext).
Qed.

Lemma search_none_inv r s p1 p2 :
  Re.search r s = None -> s = p1 +:+ p2 -> Re.match_here r p2 = None.
Proof.
  revert s. induction p1 as [|c p1 IH]; intros s Hs ->.
  - rewrite app_empty_l in Hs. destruct p2; simpl in Hs;
      destruct (Re.match_here r _); congruence.
  - rewrite app_cons in Hs. simpl in Hs.
    destruct (Re.match_here r (String c (p1 +:+ p2))); [discriminate|].
    apply (IH _ Hs). reflexivity.
Qed.

Lemma star_total p s cap k :
  (forall s' cap', k s' cap' <> None) -> Re.star p s cap k <> None.
Proof.
  intros Hk. induction s as [|c s IH]; simpl; [apply Hk|].
  destruct (p c); [|apply Hk].
  destruct (Re.star p s cap k); [discriminate|contradiction].
Qed.

Lemma canonical_here_some s :
  starts_with canonical s -> Re.match_here Re.canonical_mention s <> None.
Proof.
  intros (tok & id & rest & Htok & ->).
  rewrite (canonical_here tok id rest Htok). discriminate.
Qed.

Lemma loose_here_some s :
  starts_with loose s -> Re.match_here Re.loose_mention s <> None.
Proof.
  intros (tok & id & rest & Htok & ->).
  destruct Htok as [c code Hc Hcode].
  destruct (code_inv _ Hcode) as (d & code' & -> & Hd & _).
  repeat (rewrite app_cons || rewrite app_empty_l).
  unfold Re.match_here, Re.loose_mention.
  cbn -[Ascii.eqb Re.u_or_w Re.upper_or_digit]. rewrite Hc, Hd.
  apply star_total. discriminate.
Qed.

Lemma search_some_inv r s m :
  Re.search r s = Some m ->
  exists p1 p2, s = p1 +:+ p2 /\ Re.match_here r p2 = Some m.
Proof.
  induction s as [|c s IH]; simpl.
  - destruct (Re.match_here r "") eqn:E; [|discriminate].
    intros [= ->]. exists "", "". split; [reflexivity|assumption].
  - destruct (Re.match_here r (String c s)) eqn:E.
    + intros [= ->]. exists "", (String c s). split; [reflexivity|assumption].
    + intros H. destruct (IH H) as (p1 & p2 & -> & Hm).
      exists (String c p1), p2. split; [reflexivity|assumption].
Qed.

(** Both patterns set group 1 whenever they match. *)
Lemma canonical_group_set s m :
  Re.match_here Re.canonical_mention s = Some m -> m <> None.
Proof.
  intros H. destruct (canonical_here_inv s m H) as (tok & id & rest & Htok & ->).
  rewrite (canonical_here tok id rest Htok) in H. congruence.
Qed.

Lemma loose_group_set s m :
  Re.match_here Re.loose_mention s = Some m -> m <> None.
Proof.
  unfold Re.match_here, Re.loose_mention.
  cbn -[Ascii.eqb Re.u_or_w Re.upper_or_digit].
  destruct s as [|c0 s]; [discriminate|].
  destruct (Ascii.eqb "@" c0); [|discriminate].
  destruct s as [|c s]; [discriminate|].
  destruct (Re.u_or_w c); [|discriminate].
  destruct s as [|d s]; [discriminate|].
  destruct (Re.upper_or_digit d); [|discriminate].
  intros H. pose proof (star_greedy Re.upper_or_digit s None
    (fun s' _ => Some (Some (Re.consumed (String c (String d s)) s')))
    _ eq_refl) as H'.
  rewrite H' in H. congruence.
Qed.

Lemma none_before_free (token : string -> string -> Prop) r pre s :
  (forall s', starts_with token s' -> Re.match_here r s' <> None) ->
  free_of r pre s = true -> none_before token pre s.
Proof.
  intros Hsome. induction pre as [|c pre IH]; intros Hfree p1 p2 Hpre Hp2 Hstart.
  - destruct p1, p2; try discriminate. congruence.
  - simpl in Hfree.
    destruct (Re.match_here r (String c pre +:+ s)) eqn:E; [discriminate|].
    destruct p1 as [|c1 p1].
    + rewrite app_empty_l in Hpre. subst p2. apply (Hsome _ Hstart), E.
    + rewrite app_cons in Hpre. injection Hpre as -> ->.
      apply (IH Hfree p1 p2); [reflexivity|assumption|assumption].
Qed.

Lemma absent_search_none (token : string -> string -> Prop) r text :
  (forall s', starts_with token s' -> Re.match_here r s' <> None) ->
  Re.search r text = None -> absent token text.
Proof.
  intros Hsome Hnone p1 p2 Htext Hstart.
  apply (Hsome _ Hstart), (search_none_inv r text p1 p2 Hnone Htext).
Qed.

(** X23. The resolver finds nothing exactly when the text holds no
    mention, canonical or loose. *)
Lemma resolver_none_iff text :
  resolve_opponent text = None <->
  absent canonical text /\ absent loose text.
Proof.
  unfold resolve_opponent. split.
  - destruct (Re.search Re.canonical_mention text) as [m|] eqn:Ec.
    { intros ->. destruct (search_some_inv _ _ _ Ec) as (p1 & p2 & _ & Hm).
      destruct (canonical_group_set _ _ Hm). reflexivity. }
    destruct (Re.search Re.loose_mention text) as [m|] eqn:El.
    { intros ->. destruct (search_some_inv _ _ _ El) as (p1 & p2 & _ & Hm).
      destruct (loose_group_set _ _ Hm). reflexivity. }
    intros _. split.
    + apply (absent_search_none canonical _ _ canonical_here_some Ec).
    + apply (absent_search_none loose _ _ loose_here_some El).
  - intros [Hc Hl].
    rewrite (search_canonical_absent _ Hc), (search_loose_absent _ Hl). reflexivity.
Qed.

(** C6. Whenever a challenge text holds a mention, the resolver returns
    exactly the identifier inside the first canonical token, [<@id>] or
    [<@id|name>], whatever the display name; when the text holds no
    canonical token at all, it returns the identifier code after the first
    loose [@] token, the code reaching as far as identifier characters go. *)
Theorem resolver_extracts_first_mention (pre tok id post : string) :
  (canonical tok id /\ none_before canonical pre (tok +:+ post)) \/
  (absent canonical (pre +:+ tok +:+ post) /\
   loose tok id /\ stops Re.upper_or_digit post /\
   none_before loose pre (tok +:+ post)) ->
  resolve_opponent (pre +:+ tok +:+ post) = Some id.
Proof.
  unfold resolve_opponent.
  intros [[Htok Hfirst] | (Hnone & Htok & Hpost & Hfirst)].
  - rewrite (search_canonical_first pre tok id post Htok Hfirst). reflexivity.
  - rewrite (search_canonical_absent _ Hnone).
    rewrite (search_loose_first pre tok id post Htok Hpost Hfirst). reflexivity.
Qed.

End Resolver.

(** * The handlers *)

(** Symbolic execution: unfold a handler down to the events it logs, then
    split on the answer of each call in turn. *)
Ltac run_handler :=
  unfold handle_score_submission, handle_pick_opponent, handle_pingpong,
    accept_match, decline_match, open_score_modal, join_if_possible,
    record_result, create_match, delete_match, get_match, call,
    channel_id_of, time_time, bind, try_except, int, ack, ack_errors,
    respond, log, ret, raise;
  cbn -[PyStr.strip PyStr.int PyStr.startswith PyStr.split1].

Ltac next_call :=
  match goal with
  | |- context [match client ?env ?tr ?c with Return _ => _ | Raise _ => _ end] =>
      destruct (client env tr c) as [?|[]] eqn:?
  end.

Ltac next_response :=
  match goal with
  | |- context [match ?d with Some _ => _ | None => _ end] => destruct d
  end.

Ltac all_calls :=
  repeat (first [next_call | next_response]; cbn).

Ltac flatten_trace := rewrite <- ?app_assoc; cbn.

Section Handlers.

Variable rt : Runtime.

(** ** Score submission *)

Section ScoreSubmission.

Variable body : ScoreSubmission.
Variable env : Env.
Variable w : World.

(** C4. A submission of which either raw score is not an integer is
    answered by the field-level error on the score block and by nothing
    else: no statement is run on the database (no match is read, created or
    deleted, no result is inserted), so both tables stay as they were. *)
Theorem score_submission_unparsable :
  py_int rt (py_strip rt (score_input_challenger body)) = None \/
  py_int rt (py_strip rt (score_input_opponent body)) = None ->
  handle_score_submission rt body env w =
    (Val tt, {| db := db w;
                trace := trace w ++ [Ack; AckErrors "score_block_challenger"] |}).
Proof.
  intros H. run_handler.
  destruct H as [H | H].
  - rewrite H. cbn. flatten_trace. reflexivity.
  - rewrite H.
    destruct (py_int rt (py_strip rt (score_input_challenger body)));
      cbn; flatten_trace; reflexivity.
Qed.

(** C9. A submission with two integer scores for a match id that is not
    in the table reads the table once and sends one message, the
    context-lost notice, to the submitter; it inserts no result and leaves
    both tables as they were.  The handler ends as that one call does. *)
Theorem score_submission_absent (a b : Z) :
  scores_parse rt body a b ->
  select_match (score_private_metadata body) (db w) = None ->
  exists r,
    handle_score_submission rt body env w =
      (res_of_reply r,
       {| db := db w;
          trace := trace w ++
            [Ack; Sql (SelectMatch (score_private_metadata body) None);
             Api (chat_postMessage (score_user body) ContextLost) r] |}).
Proof.
  intros [Ha Hb] Hm. run_handler. rewrite Ha, Hb. cbn. rewrite Hm. cbn.
  next_call; cbn;
    match goal with E : client _ _ _ = ?r |- _ => exists r end;
    flatten_trace; reflexivity.
Qed.

(** What a submission does to a match that is in the table: it joins the
    channel, inserts the result, posts it, and deletes the match only when
    the post returned. *)
Lemma score_submission_present (a b : Z) (m : Match) :
  scores_parse rt body a b ->
  scores_fit rt a b ->
  select_match (score_private_metadata body) (db w) = Some m ->
  join_tolerated env (m_channel m) ->
  let match_id := score_private_metadata body in
  let tr0 := trace w ++ [Ack; Sql (SelectMatch match_id (Some m))] in
  let join := conversations_join (m_channel m) in
  let tr1 := tr0 ++ [Api join (client env tr0 join)] in
  let r := recorded match_id m a b (score_user body) (clock env tr1) in
  let tr2 := tr1 ++ [Now (clock env tr1); Sql (InsertResult r)] in
  let post := chat_postMessage (m_channel m)
                (MatchResult (m_challenger m) (m_opponent m) a b
                   (winner_line_of (determine_winner m a b))) in
  let w' := snd (handle_score_submission rt body env w) in
  exists tail,
    trace w' = tr2 ++ [Api post (client env tr2 post)] ++ tail /\
    results (db w') = results (db w) ++ [r] /\
    match client env tr2 post with
    | Return _ =>
        tail = [Sql (DeleteMatch match_id)] /\
        matches (db w') = delete match_id (matches (db w)) /\
        fst (handle_score_submission rt body env w) = Val tt
    | Raise _ =>
        Forall (fun ev => is_sql ev = false) tail /\
        matches (db w') = matches (db w)
    end.
Proof.
  intros [Ha Hb] [Fa Fb] Hm Hj. cbv zeta. unfold recorded.
  run_handler. rewrite Ha, Hb. cbn. rewrite Hm, Fa, Fb. cbn. flatten_trace.
  repeat (first [next_call | next_response]; cbn; flatten_trace);
    try match goal with
        | E : client _ _ (conversations_join _) = Raise _ |- _ =>
            apply Hj in E; discriminate E
        end.
  all: eexists; flatten_trace; (split; [reflexivity|]); (split; [reflexivity|]);
    cbn; try (split; [repeat constructor|reflexivity]); auto.
Qed.

(** The insert, with the row it writes. *)
Lemma score_submission_inserts (a b : Z) (m : Match) :
  scores_parse rt body a b ->
  scores_fit rt a b ->
  select_match (score_private_metadata body) (db w) = Some m ->
  join_tolerated env (m_channel m) ->
  exists t,
    results (db (snd (handle_score_submission rt body env w))) =
    results (db w) ++ [recorded (score_private_metadata body) m a b (score_user body) t].
Proof.
  intros Hparse Hfit Hm Hj.
  destruct (score_submission_present a b m Hparse Hfit Hm Hj)
    as (tail & _ & Hres & _).
  eexists. exact Hres.
Qed.

(** When the post is delivered, the insert comes first and the delete
    last, and nothing else is written. *)
Lemma result_inserted_before_match_deleted (a b : Z) (m : Match) :
  scores_parse rt body a b ->
  scores_fit rt a b ->
  select_match (score_private_metadata body) (db w) = Some m ->
  join_tolerated env (m_channel m) ->
  post_returns env (m_channel m) ->
  let w' := snd (handle_score_submission rt body env w) in
  exists rj t post d,
    let r := recorded (score_private_metadata body) m a b (score_user body) t in
    trace w' = trace w ++
      [Ack; Sql (SelectMatch (score_private_metadata body) (Some m));
       Api (conversations_join (m_channel m)) rj; Now t;
       Sql (InsertResult r); Api post (Return d);
       Sql (DeleteMatch (score_private_metadata body))] /\
    db w' = Db.delete_match (score_private_metadata body) (insert_result r (db w)).
Proof.
  intros Hparse Hfit Hm Hj Hpost.
  destruct (score_submission_present a b m Hparse Hfit Hm Hj)
    as (tail & Htr & Hres & Hrp).
  revert Htr Hres Hrp. cbv zeta.
  match goal with
  | |- context [client env ?tr (chat_postMessage ?c ?msg)] =>
      destruct (Hpost tr msg) as [d ->]
  end.
  intros Htr Hres (-> & Hmatches & _).
  repeat rewrite <- app_assoc in Htr. repeat rewrite <- app_assoc in Hres.
  cbn [app] in Htr, Hres.
  eexists _, _, _, d. cbv zeta. split; [exact Htr|].
  destruct (db (handle_score_submission rt body env w).2) as [ms rs].
  cbn [matches results] in Hres, Hmatches. rewrite Hres, Hmatches. reflexivity.
Qed.

(** When the post fails, whatever the failure, the result is in the log
    and the match is still in the table. *)
Lemma undelivered_result_leaves_match (a b : Z) (m : Match) :
  scores_parse rt body a b ->
  scores_fit rt a b ->
  select_match (score_private_metadata body) (db w) = Some m ->
  join_tolerated env (m_channel m) ->
  post_raises env (m_channel m) ->
  let w' := snd (handle_score_submission rt body env w) in
  (exists t, results (db w') = results (db w) ++
     [recorded (score_private_metadata body) m a b (score_user body) t]) /\
  select_match (score_private_metadata body) (db w') = Some m.
Proof.
  intros Hparse Hfit Hm Hj Hpost.
  destruct (score_submission_present a b m Hparse Hfit Hm Hj)
    as (tail & _ & Hres & Hrp).
  revert Hrp. cbv zeta.
  match goal with
  | |- context [client env ?tr (chat_postMessage ?c ?msg)] =>
      destruct (Hpost tr msg) as [e ->]
  end.
  intros [_ Hmatches]. split; [eexists; exact Hres|].
  unfold select_match in *. rewrite Hmatches. exact Hm.
Qed.

(** A submission for a match that is gone leaves the database alone. *)
Lemma score_submission_gone (a b : Z) :
  scores_parse rt body a b ->
  select_match (score_private_metadata body) (db w) = None ->
  db (snd (handle_score_submission rt body env w)) = db w.
Proof.
  intros [Ha Hb] Hm. run_handler. rewrite Ha, Hb. cbn. rewrite Hm. cbn.
  next_call; reflexivity.
Qed.

(** A submission with a score that does not fit its column writes
    nothing. *)
Lemma score_submission_out_of_range (a b : Z) :
  scores_parse rt body a b ->
  integer_ok rt a && integer_ok rt b = false ->
  db (snd (handle_score_submission rt body env w)) = db w.
Proof.
  intros [Ha Hb] Hfit. run_handler. rewrite Ha, Hb. cbn.
  destruct (select_match _ _); cbn; rewrite ?Hfit; cbn;
    all_calls; reflexivity.
Qed.

(** X24. A submission for a match in the table with a score that does
    not fit its column gets as far as the insert and stops there: once the
    channel is joined (or the join refused with a Slack error) the handler
    ends with the driver's exception, having read the clock, and neither
    table has changed; nothing is posted and the match is not deleted. *)
Lemma score_submission_out_of_range_raises (a b : Z) (m : Match) :
  scores_parse rt body a b ->
  integer_ok rt a && integer_ok rt b = false ->
  select_match (score_private_metadata body) (db w) = Some m ->
  join_tolerated env (m_channel m) ->
  exists rj t,
    handle_score_submission rt body env w =
      (Exc DatabaseError,
       {| db := db w;
          trace := trace w ++
            [Ack; Sql (SelectMatch (score_private_metadata body) (Some m));
             Api (conversations_join (m_channel m)) rj; Now t] |}).
Proof.
  intros [Ha Hb] Hfit Hm Hj. run_handler. rewrite Ha, Hb. cbn.
  rewrite Hm, Hfit. cbn.
  next_call; cbn;
    try match goal with
        | E : client _ _ (conversations_join _) = Raise _ |- _ =>
            apply Hj in E; discriminate E
        end;
    eexists _, _; flatten_trace; reflexivity.
Qed.


End ScoreSubmission.

(** X20. After a delivered submission, the same submission again
    inserts nothing and leaves both tables as they are. *)
Lemma resubmission_after_delivery (body : ScoreSubmission) (env env' : Env)
    (w : World) (a b : Z) (m : Match) :
  scores_parse rt body a b ->
  select_match (score_private_metadata body) (db w) = Some m ->
  join_tolerated env (m_channel m) ->
  post_returns env (m_channel m) ->
  let w1 := snd (handle_score_submission rt body env w) in
  db (snd (handle_score_submission rt body env' w1)) = db w1.
Proof.
  intros Hparse Hm Hj Hpost w1.
  destruct (integer_ok rt a && integer_ok rt b) eqn:Hfit.
  - apply andb_prop in Hfit.
    apply (score_submission_gone body env' w1 a b Hparse).
    destruct (result_inserted_before_match_deleted body env w a b m Hparse Hfit
                Hm Hj Hpost) as (rj & t & post & d & _ & Hdb).
    unfold w1, select_match. rewrite Hdb. cbn. apply lookup_delete_eq.
  - apply (score_submission_out_of_range body env' w1 a b Hparse Hfit).
Qed.

(** ** Accept and decline *)

(** C5. Accept reads the match and writes nothing: whatever the id, the
    handler returns, both tables are as before, and the only statement run
    is the read.  Without a row the reply is the not-found notice; with a
    row it is the score-submission prompt whose button carries the same
    match id. *)
Theorem accept_match_reads_only (body : Action) (env : Env) (w : World) :
  accept_match body env w =
    (Val tt,
     {| db := db w;
        trace := trace w ++
          [Ack;
           Sql (SelectMatch (value body) (select_match (value body) (db w)));
           Respond false
             match select_match (value body) (db w) with
             | None => MatchNotFound
             | Some m => MatchAccepted (m_challenger m) (m_opponent m) (value body)
             end] |}).
Proof.
  run_handler. destruct (select_match (value body) (db w)); cbn;
    flatten_trace; reflexivity.
Qed.

(** Accept leaves the database alone. *)
Lemma accept_match_effect (body : Action) (env : Env) (w : World) :
  snd (accept_match body env w) =
    {| db := db w;
       trace := trace w ++
         [Ack;
          Sql (SelectMatch (value body) (select_match (value body) (db w)));
          Respond false
            match select_match (value body) (db w) with
            | None => MatchNotFound
            | Some m => MatchAccepted (m_challenger m) (m_opponent m) (value body)
            end] |}.
Proof.
  run_handler. destruct (select_match (value body) (db w)); cbn;
    flatten_trace; reflexivity.
Qed.

(** Decline deletes the row of the match id, present or not, and says so. *)
Lemma decline_match_deletes (body : Action) (env : Env) (w : World) :
  decline_match body env w =
    (Val tt,
     {| db := Db.delete_match (value body) (db w);
        trace := trace w ++
          [Ack; Sql (DeleteMatch (value body)); Respond false MatchDeclined] |}).
Proof. run_handler. flatten_trace. reflexivity. Qed.

(** X21. A second decline of the same id changes nothing and does not
    fail. *)
Lemma decline_match_twice (body : Action) (env env' : Env) (w : World) :
  let w1 := snd (decline_match body env w) in
  fst (decline_match body env' w1) = Val tt /\
  db (snd (decline_match body env' w1)) = db w1.
Proof.
  rewrite !decline_match_deletes. cbn. split; [reflexivity|].
  unfold Db.delete_match. cbn. rewrite delete_delete_eq. reflexivity.
Qed.

(** C10, as amended. Neither handler looks at who acts.  For any user
    [u] and any match in the table, a decline clicked by [u] removes the
    row; and a submission by [u] with two integer scores that fit the
    [INTEGER] columns inserts a result whose [submitted_by] is [u], when
    joining the channel returns or fails with a Slack error.  [u] need not
    be the challenger or the opponent. *)
Theorem acting_user_need_not_participate (u : string) (m : Match)
    (click : Action) (form : ScoreSubmission) (env : Env) (w : World) (a b : Z) :
  action_user click = u ->
  select_match (value click) (db w) = Some m ->
  score_user form = u ->
  scores_parse rt form a b ->
  scores_fit rt a b ->
  select_match (score_private_metadata form) (db w) = Some m ->
  join_tolerated env (m_channel m) ->
  (fst (decline_match click env w) = Val tt /\
   select_match (value click) (db (snd (decline_match click env w))) = None) /\
  (exists r,
     results (db (snd (handle_score_submission rt form env w))) = results (db w) ++ [r] /\
     r_match_id r = score_private_metadata form /\
     r_submitted_by r = u).
Proof.
  intros _ _ Hu Hparse Hfit Hform Hjoin. split.
  - rewrite decline_match_deletes. cbn. split; [reflexivity|].
    unfold select_match. cbn. apply lookup_delete_eq.
  - destruct (score_submission_inserts form env w a b m Hparse Hfit Hform Hjoin)
      as (t & Hres).
    eexists. split; [exact Hres|]. cbn. split; [reflexivity|exact Hu].
Qed.

(** The score form opens for any user who clicks, with neutral labels for
    a user who is not in the match. *)
Lemma open_score_modal_for_outsider (body : Action) (env : Env) (w : World) (m : Match) :
  select_match (value body) (db w) = Some m ->
  action_user body <> m_challenger m ->
  action_user body <> m_opponent m ->
  exists r,
    open_score_modal body env w =
      (res_of_reply r,
       {| db := db w;
          trace := trace w ++
            [Ack; Sql (SelectMatch (value body) (Some m));
             Api (views_open (action_trigger_id body)
                    (SubmitScore (value body) (m_challenger m) (m_opponent m)
                       YourScore OpponentsScore)) r] |}).
Proof.
  intros Hm Hc Ho. run_handler. rewrite Hm. cbn.
  destruct (decide (action_user body = m_challenger m)); [contradiction|].
  destruct (decide (action_user body = m_opponent m)); [contradiction|].
  cbn. next_call; cbn;
    match goal with E : client _ _ _ = ?r |- _ => exists r end;
    flatten_trace; reflexivity.
Qed.

(** ** The winner *)

Lemma determine_winner_spec (m : Match) (a b : Z) :
  (determine_winner m a b = None <-> a = b) /\
  (a > b -> determine_winner m a b = Some (m_challenger m)) /\
  (b > a -> determine_winner m a b = Some (m_opponent m)).
Proof.
  unfold determine_winner.
  destruct (Z.gtb_spec a b), (Z.gtb_spec b a);
    repeat split; intros; (congruence || lia).
Qed.




(** ** Issuing a challenge *)

Lemma split1_private_metadata (channel user : string) :
  PyStr.contains "|" channel = false ->
  PyStr.split1 "|" (format_private_metadata channel user) = [channel; user].
Proof.
  unfold format_private_metadata.
  induction channel as [|c channel IH]; intros Hbar.
  - reflexivity.
  - cbn -[Ascii.eqb] in Hbar. apply orb_false_elim in Hbar as [Hc Hrest].
    rewrite app_cons. cbn -[Ascii.eqb String.append].
    rewrite Ascii.eqb_sym, Hc, (IH Hrest). reflexivity.
Qed.

(** Without a mention the command opens the picker and does nothing else;
    the picker carries the channel and the issuer. *)
Lemma pingpong_opens_picker (command : Command) (env : Env) (w : World) :
  PyStr.startswith "challenge" (py_strip rt (text command)) = true ->
  resolve_opponent (py_strip rt (text command)) = None ->
  exists r,
    handle_pingpong rt command env w =
      (res_of_reply r,
       {| db := db w;
          trace := trace w ++
            [Ack;
             Api (views_open (trigger_id command)
                    (PickOpponent (format_private_metadata (channel_id command)
                                     (user_id command)))) r] |}).
Proof.
  intros Hstart Hnone. run_handler. rewrite Hstart, Hnone. cbn.
  next_call; cbn;
    match goal with E : client _ _ _ = ?r |- _ => exists r end;
    flatten_trace; reflexivity.
Qed.

(** With a mention the command creates the match at once. *)
Lemma pingpong_creates_match (command : Command) (env : Env) (w : World)
    (c : ascii) (rest : string) :
  PyStr.startswith "challenge" (py_strip rt (text command)) = true ->
  resolve_opponent (py_strip rt (text command)) = Some (String c rest) ->
  fst (handle_pingpong rt command env w) = Val tt /\
  creation_step (user_id command) (String c rest) (channel_id command)
    w (snd (handle_pingpong rt command env w))
    [Respond true
       (Challenge (user_id command) (String c rest)
          (format_match_id (user_id command) (clock env (trace w ++ [Ack]))))].
Proof.
  intros Hstart Hsome. run_handler. rewrite Hstart, Hsome. cbn.
  split; [reflexivity|].
  eexists _, _. cbn. flatten_trace. split; reflexivity.
Qed.

(** The picker's submission creates the match from what the picker
    carried, then announces it as well as it can. *)
Lemma pick_opponent_creates_match (body : PickSubmission) (env : Env) (w : World)
    (channel user : string) :
  PyStr.contains "|" channel = false ->
  pick_private_metadata body = format_private_metadata channel user ->
  exists tail,
    creation_step user (selected_user body) channel
      w (snd (handle_pick_opponent body env w)) tail /\
    Forall (fun ev => is_sql ev = false) tail.
Proof.
  intros Hbar Hmd. run_handler. unfold unpack_private_metadata.
  rewrite Hmd, (split1_private_metadata _ _ Hbar). cbn.
  all_calls.
  all: eexists; split; [eexists _, _; cbn; flatten_trace; split; reflexivity|];
    cbn; repeat constructor.
Qed.

(** An identifier code holds no [|]. *)
Lemma code_has_no_bar (id : string) :
  Mention.is_code id -> PyStr.contains "|" id = false.
Proof.
  intros [_ Hall]. induction id as [|c id IH]; [reflexivity|].
  simpl in Hall. apply andb_prop in Hall as [Hc Hall].
  cbn -[Ascii.eqb]. rewrite (proj1 (upper_or_digit_not_bar_gt c Hc)).
  apply IH, Hall.
Qed.

(** C7. A challenge text in which neither pattern matches creates no
    match: the command only opens the picker, which carries the channel and
    the issuer.  The picker's submission then performs the match-creation
    step with the issuer as challenger, the picked user as opponent and the
    original channel, the id being made from the issuer and the clock; this
    is the step the command itself performs when its text names the
    opponent.  The channel id is one the platform issues, a code of capital
    letters and digits. *)
Theorem picker_resumes_challenge (command : Command) (picked view_id : string)
    (env env' : Env) (w w' : World) :
  PyStr.startswith "challenge" (py_strip rt (text command)) = true ->
  Re.search Re.canonical_mention (py_strip rt (text command)) = None ->
  Re.search Re.loose_mention (py_strip rt (text command)) = None ->
  Mention.is_code (channel_id command) ->
  let md := format_private_metadata (channel_id command) (user_id command) in
  (exists r,
     handle_pingpong rt command env w =
       (res_of_reply r,
        {| db := db w;
           trace := trace w ++
             [Ack; Api (views_open (trigger_id command) (PickOpponent md)) r] |})) /\
  (exists tail,
     creation_step (user_id command) picked (channel_id command) w'
       (snd (handle_pick_opponent
               {| pick_private_metadata := md; pick_view_id := view_id;
                  selected_user := picked |} env' w')) tail /\
     Forall (fun ev => is_sql ev = false) tail) /\
  (forall (named : Command) (c : ascii) (rest : string),
     PyStr.startswith "challenge" (py_strip rt (text named)) = true ->
     resolve_opponent (py_strip rt (text named)) = Some (String c rest) ->
     exists tail,
       creation_step (user_id named) (String c rest) (channel_id named) w'
         (snd (handle_pingpong rt named env' w')) tail /\
       Forall (fun ev => is_sql ev = false) tail).
Proof.
  intros Hstart Hcanon Hloose Hcode md.
  pose proof (code_has_no_bar _ Hcode) as Hbar. repeat split.
  - apply pingpong_opens_picker; [assumption|].
    unfold resolve_opponent. rewrite Hcanon, Hloose. reflexivity.
  - apply (pick_opponent_creates_match
             {| pick_private_metadata := md; pick_view_id := view_id;
                selected_user := picked |}
             env' w' (channel_id command) (user_id command));
      [assumption|reflexivity].
  - intros named c rest Hs Hr.
    destruct (pingpong_creates_match named env' w' c rest Hs Hr) as [_ Hstep].
    eexists. split; [exact Hstep|]. repeat constructor.
Qed.

End Handlers.

(** ** Match ids *)

Lemma contains_app c s t :
  PyStr.contains c (s +:+ t) = PyStr.contains c s || PyStr.contains c t.
Proof.
  induction s as [|c' s IH]; [reflexivity|].
  rewrite app_cons. cbn -[Ascii.eqb]. rewrite IH, orb_assoc. reflexivity.
Qed.

Lemma pretty_N_go_no_underscore (x : N) (s : string) :
  PyStr.contains "_" s = false -> PyStr.contains "_" (pretty_N_go x s) = false.
Proof.
  revert s. induction (N.lt_wf_0 x) as [x _ IH]; intros s Hs.
  assert (x = 0 \/ 0 < x)%N as [->|Hx] by lia.
  - rewrite pretty_N_go_0. exact Hs.
  - rewrite pretty_N_go_step by exact Hx. apply IH.
    + apply N.div_lt; [exact Hx|reflexivity].
    + cbn -[Ascii.eqb]. rewrite Hs. unfold pretty_N_char.
      repeat case_match; reflexivity.
Qed.

Lemma pretty_Z_no_underscore (t : Z) : PyStr.contains "_" (pretty t) = false.
Proof.
  destruct t as [|p|p]; unfold pretty, pretty_Z; [reflexivity| |].
  - unfold pretty, pretty_positive, pretty, pretty_N.
    case_decide; [reflexivity|]. apply pretty_N_go_no_underscore. reflexivity.
  - rewrite contains_app. unfold pretty, pretty_positive, pretty, pretty_N.
    case_decide; [reflexivity|].
    rewrite pretty_N_go_no_underscore; reflexivity.
Qed.

(** The text after the last underscore determines the split. *)
Lemma split_at_last_underscore (u u' d d' : string) :
  PyStr.contains "_" d = false -> PyStr.contains "_" d' = false ->
  u +:+ "_" +:+ d = u' +:+ "_" +:+ d' -> u = u' /\ d = d'.
Proof.
  intros Hd Hd'. revert u'.
  induction u as [|c u IH]; intros [|c' u']; rewrite ?app_cons, ?app_empty_l; intros H.
  - injection H as ->. split; reflexivity.
  - injection H as <- ->.
    rewrite !contains_app in Hd. cbn in Hd. rewrite orb_true_r in Hd. discriminate.
  - injection H as -> <-.
    rewrite !contains_app in Hd'. cbn in Hd'. rewrite orb_true_r in Hd'. discriminate.
  - injection H as -> H. destruct (IH _ H) as [-> ->]. split; reflexivity.
Qed.

(** X22. Two match ids are the same only for the same user in the same
    second. *)
Lemma format_match_id_inj (u u' : string) (t t' : Z) :
  format_match_id u t = format_match_id u' t' <-> u = u' /\ t = t'.
Proof.
  split; [|intros [-> ->]; reflexivity].
  unfold format_match_id. intros H.
  apply (inj (String.app "match_")) in H.
  apply split_at_last_underscore in H as [-> Ht];
    try apply pretty_Z_no_underscore.
  split; [reflexivity|]. apply (inj pretty), Ht.
Qed.

(** ** Evaluations *)

Section Evaluations.
Import Scenario.

(** C1. The bot is not in the channel of the match: the result is
    inserted, the post fails, the submitter is told by direct message that
    the scores were recorded, and the match row is still in the table; no
    [DELETE] was run. *)
Theorem undelivered_result_keeps_match :
  let r := recorded (m_id u2_vs_u1) u2_vs_u1 21 15 "U2" 1700000000 in
  handle_score_submission cpython (submission u2_vs_u1 "21" "15" "U2") not_in_c1
    (pending u2_vs_u1) =
  (Val tt,
   {| db := {| matches := {[ m_id u2_vs_u1 := u2_vs_u1 ]}; results := [r] |};
      trace :=
        [Ack; Sql (SelectMatch (m_id u2_vs_u1) (Some u2_vs_u1));
         Api (conversations_join "C1")
           (Raise (SlackApiError (Some "method_not_supported_for_channel_type")));
         Now 1700000000; Sql (InsertResult r);
         Api (chat_postMessage "C1" (MatchResult "U2" "U1" 21 15 (Some "U2")))
           (Raise (SlackApiError (Some "not_in_channel")));
         Api (conversations_open "U2") (Return (Some "D024BE91L"));
         Api (chat_postMessage "D024BE91L"
                (ScoresRecordedDM (Some "not_in_channel") 21 15 (m_id u2_vs_u1)))
           (Return None)] |}).
Proof. vm_compute. reflexivity. Qed.

(** C2. The same submission sent twice while the bot is not in the
    channel: the second call finds the match again and inserts a second,
    identical result. *)
Theorem resubmission_duplicates_result :
  let form := submission u2_vs_u1 "21" "15" "U2" in
  let r := recorded (m_id u2_vs_u1) u2_vs_u1 21 15 "U2" 1700000000 in
  let w1 := snd (handle_score_submission cpython form not_in_c1 (pending u2_vs_u1)) in
  let w2 := snd (handle_score_submission cpython form not_in_c1 w1) in
  fst (handle_score_submission cpython form not_in_c1 w1) = Val tt /\
  results_of (m_id u2_vs_u1) (db w2) = [r; r].
Proof. vm_compute. split; reflexivity. Qed.

(** C8. Two challenges issued by the same user within one second, to
    different opponents, get the same match id; the second upsert replaces
    the row of the first, whose buttons now act on the other match. *)
Theorem same_second_challenges_collide :
  let w1 := snd (handle_pingpong cpython (challenge "challenge <@U1>" "U2" "C1") calm start) in
  let w2 := snd (handle_pingpong cpython (challenge "challenge <@U3>" "U2" "C9") calm w1) in
  let m1 := {| m_id := "match_U2_1700000000"; m_challenger := "U2";
               m_opponent := "U1"; m_channel := "C1"; m_created_at := 1700000000 |} in
  let m2 := {| m_id := "match_U2_1700000000"; m_challenger := "U2";
               m_opponent := "U3"; m_channel := "C9"; m_created_at := 1700000000 |} in
  trace w2 =
    [Ack; Now 1700000000; Now 1700000000; Sql (UpsertMatch m1);
     Respond true (Challenge "U2" "U1" "match_U2_1700000000");
     Ack; Now 1700000000; Now 1700000000; Sql (UpsertMatch m2);
     Respond true (Challenge "U2" "U3" "match_U2_1700000000")] /\
  matches (db w2) = {[ "match_U2_1700000000" := m2 ]}.
Proof. vm_compute. split; reflexivity. Qed.


(** C10, the claim as written fails in the same way for a user who is
    not in the match: the scores parse, yet no result is inserted.  It
    also fails, for scores of any size, when the request to join the
    channel ends with an error that is not a Slack error: the handler ends
    with that error before the insert. *)
Lemma outsider_oversized_score_is_not_recorded :
  let form := submission u2_vs_u1 "0" "-9223372036854775809" "U9" in
  let w' := snd (handle_score_submission cpython form calm (pending u2_vs_u1)) in
  let form2 := submission u2_vs_u1 "21" "15" "U9" in
  let w2 := snd (handle_score_submission cpython form2 join_unreachable
                   (pending u2_vs_u1)) in
  (scores_parse cpython form 0 (-9223372036854775809) /\
   select_match (score_private_metadata form) (db (pending u2_vs_u1)) = Some u2_vs_u1 /\
   fst (handle_score_submission cpython form calm (pending u2_vs_u1)) = Exc DatabaseError /\
   results (db w') = []) /\
  (scores_parse cpython form2 21 15 /\
   select_match (score_private_metadata form2) (db (pending u2_vs_u1)) = Some u2_vs_u1 /\
   fst (handle_score_submission cpython form2 join_unreachable (pending u2_vs_u1)) =
     Exc OtherError /\
   results (db w2) = []).
Proof. cbv zeta. repeat split; vm_compute; reflexivity. Qed.

End Evaluations.

(** ** Instances *)

Section Instances.
Import Scenario Mention.

Lemma calm_join_tolerated channel : join_tolerated calm channel.
Proof. intros tr e H. discriminate H. Qed.

(** ["abc"] and ["15"]: the form is refused and nothing is run. *)
Lemma score_submission_unparsable_witness :
  py_int cpython (py_strip cpython "abc") = None /\
  handle_score_submission cpython (submission u2_vs_u1 "abc" "15" "U2") calm (pending u2_vs_u1) =
    (Val tt, {| db := db (pending u2_vs_u1);
                trace := [Ack; AckErrors "score_block_challenger"] |}).
Proof.
  split; [reflexivity|].
  apply (score_submission_unparsable cpython (submission u2_vs_u1 "abc" "15" "U2")
           calm (pending u2_vs_u1)).
  left. reflexivity.
Defined.

(** ["21"] and ["15"] for a match that is not in the table. *)
Lemma score_submission_absent_witness :
  scores_parse cpython (submission u2_vs_u1 "21" "15" "U2") 21 15 /\
  select_match (m_id u2_vs_u1) (db start) = None /\
  exists r,
    handle_score_submission cpython (submission u2_vs_u1 "21" "15" "U2") calm start =
      (res_of_reply r,
       {| db := db start;
          trace := [Ack; Sql (SelectMatch (m_id u2_vs_u1) None);
                    Api (chat_postMessage "U2" ContextLost) r] |}).
Proof.
  assert (scores_parse cpython (submission u2_vs_u1 "21" "15" "U2") 21 15) as Hparse
    by (split; reflexivity).
  split; [exact Hparse|]. split; [reflexivity|].
  apply (score_submission_absent cpython (submission u2_vs_u1 "21" "15" "U2")
           calm start 21 15 Hparse).
  reflexivity.
Defined.

(** [U9] is neither [U2] nor [U1]. *)
Lemma acting_user_need_not_participate_witness :
  "U9" <> m_challenger u2_vs_u1 /\ "U9" <> m_opponent u2_vs_u1 /\
  (fst (decline_match (click u2_vs_u1 "U9") calm (pending u2_vs_u1)) = Val tt /\
   select_match (m_id u2_vs_u1)
     (db (snd (decline_match (click u2_vs_u1 "U9") calm (pending u2_vs_u1)))) = None) /\
  (exists r,
     results (db (snd (handle_score_submission cpython (submission u2_vs_u1 "21" "15" "U9")
                         calm (pending u2_vs_u1)))) = [r] /\
     r_match_id r = m_id u2_vs_u1 /\
     r_submitted_by r = "U9").
Proof.
  split; [discriminate|]. split; [discriminate|].
  apply (acting_user_need_not_participate cpython "U9" u2_vs_u1
           (click u2_vs_u1 "U9") (submission u2_vs_u1 "21" "15" "U9") calm
           (pending u2_vs_u1) 21 15).
  - reflexivity.
  - reflexivity.
  - reflexivity.
  - split; reflexivity.
  - split; reflexivity.
  - reflexivity.
  - apply calm_join_tolerated.
Defined.


(** ["challenge <@U123ABC|bob> now"] *)
Lemma resolver_extracts_first_mention_witness :
  canonical "<@U123ABC|bob>" "U123ABC" /\
  none_before canonical "challenge " ("<@U123ABC|bob>" +:+ " now") /\
  resolve_opponent ("challenge " +:+ "<@U123ABC|bob>" +:+ " now") = Some "U123ABC".
Proof.
  assert (canonical "<@U123ABC|bob>" "U123ABC") as Htok.
  { apply (canonical_named "U123ABC" "bob");
      [split; [discriminate|reflexivity]|discriminate|reflexivity]. }
  assert (none_before canonical "challenge " ("<@U123ABC|bob>" +:+ " now")) as Hfirst.
  { apply (none_before_free canonical Re.canonical_mention);
      [apply canonical_here_some|reflexivity]. }
  split; [exact Htok|]. split; [exact Hfirst|].
  apply resolver_extracts_first_mention. left. split; assumption.
Defined.

(** ["challenge @U123ABC, now"], where no canonical token occurs. *)
Example resolver_extracts_loose_mention :
  resolve_opponent ("challenge " +:+ "@U123ABC" +:+ ", now") = Some "U123ABC".
Proof.
  apply resolver_extracts_first_mention. right.
  split; [|split; [|split; [reflexivity|]]].
  - apply (absent_search_none canonical Re.canonical_mention);
      [apply canonical_here_some|reflexivity].
  - apply (loose_intro "U" "123ABC"); [reflexivity|].
    split; [discriminate|reflexivity].
  - apply (none_before_free loose Re.loose_mention);
      [apply loose_here_some|reflexivity].
Qed.

(** ["challenge bob"] by [U2] in [C1], then [U3] picked. *)
Lemma picker_resumes_challenge_witness :
  let command := challenge "challenge bob" "U2" "C1" in
  (exists r,
     handle_pingpong cpython command calm start =
       (res_of_reply r,
        {| db := db start;
           trace := [Ack; Api (views_open (trigger_id command) (PickOpponent "C1|U2")) r] |})) /\
  (exists tail,
     creation_step "U2" "U3" "C1" start
       (snd (handle_pick_opponent (pick "C1|U2" "U3") calm start)) tail /\
     Forall (fun ev => is_sql ev = false) tail).
Proof.
  destruct (picker_resumes_challenge cpython (challenge "challenge bob" "U2" "C1")
              "U3" "V1" calm calm start start eq_refl eq_refl eq_refl)
    as (Hopen & Hpick & _).
  { split; [discriminate|reflexivity]. }
  split; [exact Hopen|exact Hpick].
Defined.

End Instances.

(** * Runs of interactions *)

Section Runs.

Variable rt : Runtime.

(** The effect of any interaction on the database is one [db_step]. *)
Lemma handler_db_step (i : Interaction) (env : Env) (w : World) :
  db_step (db w) (db (snd (handler_of rt i env w))).
Proof.
  destruct i as [command|body|body|body|body|body]; unfold handler_of.
  - run_handler.
    destruct (PyStr.startswith _ _); [|apply step_none].
    destruct (resolve_opponent _) as [[|c rest]|]; cbn;
      try (next_call; apply step_none).
    apply step_create.
  - run_handler. unfold unpack_private_metadata.
    destruct (PyStr.split1 _ _) as [|a [|b [|? ?]]]; cbn; try apply step_none.
    all_calls; apply step_create.
  - rewrite accept_match_effect. apply step_none.
  - rewrite decline_match_deletes. apply step_decline.
  - run_handler. destruct (select_match _ _); cbn.
    + destruct (decide _); [|destruct (decide _)]; cbn; next_call; apply step_none.
    + next_call; apply step_none.
  - run_handler.
    destruct (py_int rt (py_strip rt (score_input_challenger body))) as [a|]; cbn;
      [|apply step_none].
    destruct (py_int rt (py_strip rt (score_input_opponent body))) as [b|]; cbn;
      [|apply step_none].
    destruct (select_match _ _) as [m|] eqn:Hm; cbn.
    + destruct (integer_ok rt a && integer_ok rt b); cbn; all_calls;
        first [ apply step_none
              | apply (step_record _ _ m a b _ _ Hm)
              | apply (step_score _ _ m a b _ _ Hm) ].
    + next_call; apply step_none.
Qed.

(** X1. Whatever the payload and whatever the platform answers, an
    interaction leaves the database as it was, or upserts one match, or
    deletes one match id, or inserts one result computed from a match that
    is in the table, or does that and deletes the match. *)
Theorem interaction_is_one_db_step (i : Interaction) (env : Env) (w : World) :
  db_step (db w) (db (snd (handler_of rt i env w))).
Proof. apply handler_db_step. Qed.

Lemma recorded_sound_winner k m a b u t : sound_winner (recorded k m a b u t).
Proof.
  unfold sound_winner. cbn. destruct (determine_winner_spec m a b) as (? & ? & ?).
  auto.
Qed.

Lemma db_step_results d d' :
  db_step d d' ->
  exists new, results d' = results d ++ new /\
              (length new <= 1)%nat /\ Forall sound_winner new.
Proof.
  intros [|m|k|k m a b u t Hm|k m a b u t Hm]; cbn.
  1-3: exists []; rewrite app_nil_r;
    (split; [reflexivity|split; [cbn; lia|constructor]]).
  all: eexists [_]; (split; [reflexivity|split; [cbn; lia|]]);
    constructor; [apply recorded_sound_winner|constructor].
Qed.

(** X2. The log of results only grows: after any run of interactions,
    the rows that were there are still there, unchanged and in the same
    order, followed by at most one new row per interaction. *)
Theorem run_appends_results (steps : list (Interaction * Env)) (w : World) :
  exists new,
    results (db (run_all rt steps w)) = results (db w) ++ new /\
    (length new <= length steps)%nat.
Proof.
  revert w. induction steps as [|[i env] steps IH]; intros w; cbn.
  - exists []. rewrite app_nil_r. split; [reflexivity|apply le_n].
  - destruct (db_step_results _ _ (handler_db_step i env w)) as (n1 & H1 & L1 & _).
    destruct (IH (snd (handler_of rt i env w))) as (n2 & H2 & L2).
    exists (n1 ++ n2). rewrite H2, H1, <- app_assoc, length_app.
    split; [reflexivity|]. cbn in *. lia.
Qed.

(** X3. Runs keep the winners right: if every result in the log has a
    winner that agrees with its scores (none exactly for a tie, else the
    player with the greater score), so has every result after any run. *)
Theorem run_keeps_winners_sound (steps : list (Interaction * Env)) (w : World) :
  Forall sound_winner (results (db w)) ->
  Forall sound_winner (results (db (run_all rt steps w))).
Proof.
  revert w. induction steps as [|[i env] steps IH]; intros w Hw; cbn.
  - exact Hw.
  - apply IH.
    destruct (db_step_results _ _ (handler_db_step i env w)) as (n1 & -> & _ & Hn).
    apply Forall_app. split; assumption.
Qed.

(** X5. One interaction touches at most one match id: all other rows of
    [matches] are as before. *)
Theorem interaction_touches_one_match (i : Interaction) (env : Env) (w : World) :
  exists k, forall k',
    k' <> k ->
    matches (db (snd (handler_of rt i env w))) !! k' = matches (db w) !! k'.
Proof.
  destruct (handler_db_step i env w) as [|m|k|k m a b u t Hm|k m a b u t Hm]; cbn.
  - exists "". reflexivity.
  - exists (m_id m). intros k' Hne. apply lookup_insert_ne. congruence.
  - exists k. intros k' Hne. apply lookup_delete_ne. congruence.
  - exists "". reflexivity.
  - exists k. intros k' Hne. apply lookup_delete_ne. congruence.
Qed.

End Runs.

(** * More on the resolver and on issuing a challenge *)

Section Issuing.
Import Mention.

Variable rt : Runtime.

Lemma loose_here_found s m :
  Re.match_here Re.loose_mention s = Some m ->
  exists tok id rest, loose tok id /\ s = tok +:+ rest /\ m = Some id.
Proof.
  unfold Re.match_here, Re.loose_mention.
  cbn -[Ascii.eqb Re.u_or_w Re.upper_or_digit].
  destruct s as [|c0 s]; [discriminate|].
  destruct (Ascii.eqb_spec "@" c0) as [<-|]; [|discriminate].
  destruct s as [|c s]; [discriminate|].
  destruct (Re.u_or_w c) eqn:Hc; [|discriminate].
  destruct s as [|d s]; [discriminate|].
  destruct (Re.upper_or_digit d) eqn:Hd; [|discriminate].
  rewrite (star_greedy Re.upper_or_digit s None _ _ eq_refl).
  intros [= <-].
  pose proof (take_drop_while Re.upper_or_digit s) as Hs.
  set (code := String d (take_while Re.upper_or_digit s)).
  exists ("@" +:+ String c code), (String c code), (drop_while Re.upper_or_digit s).
  assert (String c (String d s) = String c code +:+ drop_while Re.upper_or_digit s) as Heq.
  { unfold code. rewrite !app_cons, Hs. reflexivity. }
  split; [|split].
  - apply loose_intro; [exact Hc|]. split; [discriminate|].
    unfold code. simpl. rewrite Hd. apply all_chars_take_while.
  - rewrite app_assoc_s, app_cons, app_empty_l, <- Heq. reflexivity.
  - rewrite Heq, consumed_app. reflexivity.
Qed.

Lemma u_or_w_upper c : Re.u_or_w c = true -> Re.upper_or_digit c = true.
Proof.
  unfold Re.u_or_w. intros H. apply orb_prop in H as [H|H];
    apply Ascii.eqb_eq in H; subst c; reflexivity.
Qed.

(** X6. What the resolver returns is always the identifier of a mention
    that occurs in the text, canonical or loose, and so a non-empty string
    of capital letters and digits: the resolver never makes up an opponent
    and never returns an empty one. *)
Theorem resolver_returns_a_mention (text id : string) :
  resolve_opponent text = Some id ->
  is_code id /\
  exists pre tok post,
    text = pre +:+ tok +:+ post /\ (canonical tok id \/ loose tok id).
Proof.
  unfold resolve_opponent.
  destruct (Re.search Re.canonical_mention text) as [m|] eqn:Ec.
  - intros ->. destruct (search_some_inv _ _ _ Ec) as (p1 & p2 & -> & Hm).
    destruct (canonical_here_inv _ _ Hm) as (tok & id' & rest & Htok & ->).
    rewrite (canonical_here tok id' rest Htok) in Hm. injection Hm as <-.
    split; [destruct Htok; assumption|].
    exists p1, tok, rest. split; [reflexivity|left; exact Htok].
  - destruct (Re.search Re.loose_mention text) as [m|] eqn:El; [|discriminate].
    intros ->. destruct (search_some_inv _ _ _ El) as (p1 & p2 & -> & Hm).
    destruct (loose_here_found _ _ Hm) as (tok & id' & rest & Htok & -> & [= <-]).
    split.
    + destruct Htok as [c code Hc [Hne Hall]]. split; [discriminate|].
      simpl. rewrite (u_or_w_upper c Hc), Hall. reflexivity.
    + exists p1, tok, rest. split; [reflexivity|right; exact Htok].
Qed.

(** X7. A command whose text does not start with [challenge] is answered
    with the usage hint and nothing else: no call to the platform, no
    statement on the database. *)
Theorem pingpong_other_text_gets_usage (command : Command) (env : Env) (w : World) :
  PyStr.startswith "challenge" (py_strip rt (text command)) = false ->
  handle_pingpong rt command env w =
    (Val tt, {| db := db w; trace := trace w ++ [Ack; Respond false Usage] |}).
Proof.
  intros H. run_handler. rewrite H. cbn. flatten_trace. reflexivity.
Qed.

(** X8. A challenge whose text holds a canonical mention creates the
    match at once: challenger the issuer, opponent the identifier of the
    first mention, channel the one of the command, id made from the issuer
    and the clock; the announcement in the channel carries that id. *)
Theorem challenge_with_mention_creates_match (command : Command) (env : Env)
    (w : World) (pre tok id post : string) :
  py_strip rt (text command) = pre +:+ tok +:+ post ->
  PyStr.startswith "challenge" (py_strip rt (text command)) = true ->
  canonical tok id ->
  none_before canonical pre (tok +:+ post) ->
  fst (handle_pingpong rt command env w) = Val tt /\
  creation_step (user_id command) id (channel_id command)
    w (snd (handle_pingpong rt command env w))
    [Respond true
       (Challenge (user_id command) id
          (format_match_id (user_id command) (clock env (trace w ++ [Ack]))))].
Proof.
  intros Htext Hstart Htok Hfirst.
  assert (resolve_opponent (py_strip rt (text command)) = Some id) as Hres.
  { rewrite Htext. unfold resolve_opponent.
    rewrite (search_canonical_first pre tok id post Htok Hfirst). reflexivity. }
  assert (is_code id) as [Hne _] by (destruct Htok; assumption).
  destruct id as [|c rest]; [congruence|].
  apply pingpong_creates_match; assumption.
Qed.

Lemma split1_without_separator (sep : ascii) (s : string) :
  PyStr.contains sep s = false -> PyStr.split1 sep s = [s].
Proof.
  induction s as [|c s IH]; intros H; [reflexivity|].
  cbn -[Ascii.eqb] in H. apply orb_false_elim in H as [Hc Hs].
  cbn -[Ascii.eqb]. rewrite Ascii.eqb_sym, Hc, (IH Hs). reflexivity.
Qed.

(** X9. A picker submission whose [private_metadata] holds no [|] is
    acknowledged and then fails with [ValueError] at the unpacking: no
    match is created and the platform is not called. *)
Theorem pick_without_separator_fails (body : PickSubmission) (env : Env) (w : World) :
  PyStr.contains "|" (pick_private_metadata body) = false ->
  handle_pick_opponent body env w =
    (Exc ValueError, {| db := db w; trace := trace w ++ [Ack] |}).
Proof.
  intros H. run_handler. unfold unpack_private_metadata.
  rewrite (split1_without_separator _ _ H). reflexivity.
Qed.

(** X10. The picker context is read back as it was written: when the
    channel id holds no [|], unpacking [channel|user] gives the channel and
    the user again, whatever the user id is (even one with a [|]). *)
Theorem private_metadata_round_trip (channel user : string) (env : Env) (w : World) :
  PyStr.contains "|" channel = false ->
  unpack_private_metadata (format_private_metadata channel user) env w =
    (Val (channel, user), w).
Proof.
  intros H. unfold unpack_private_metadata.
  rewrite (split1_private_metadata _ _ H). reflexivity.
Qed.

End Issuing.

(** * Delivery failures *)

Section Delivery.

Variable rt : Runtime.

(** Contradictions between an answer seen and what the surroundings are
    assumed to do. *)
Ltac refute_reply Hj Hp :=
  match goal with
  | E : client _ _ (conversations_join _) = Raise _ |- _ =>
      apply Hj in E; discriminate E
  | E : client _ _ (chat_postMessage _ _) = Raise _ |- _ =>
      apply Hp in E; discriminate E
  end.

(** X11. The picker's handler absorbs delivery failures: when joining and
    posting to the channel fail, if at all, with a [SlackApiError], the
    handler returns normally whatever the modal update and the direct
    message do. *)
Theorem pick_opponent_absorbs_delivery_failure (body : PickSubmission)
    (env : Env) (w : World) (channel user : string) :
  PyStr.contains "|" channel = false ->
  pick_private_metadata body = format_private_metadata channel user ->
  join_tolerated env channel ->
  post_tolerated env channel ->
  fst (handle_pick_opponent body env w) = Val tt.
Proof.
  intros Hbar Hmd Hj Hp. run_handler. unfold unpack_private_metadata.
  rewrite Hmd, (split1_private_metadata _ _ Hbar). cbn.
  all_calls; try reflexivity; refute_reply Hj Hp.
Qed.

(** X12. So does the score handler for a match that is in the table and
    scores that fit their columns: under the same two assumptions it
    returns normally, whatever the fallback direct message does. *)
Theorem score_submission_absorbs_delivery_failure (body : ScoreSubmission)
    (env : Env) (w : World) (a b : Z) (m : Match) :
  scores_parse rt body a b ->
  scores_fit rt a b ->
  select_match (score_private_metadata body) (db w) = Some m ->
  join_tolerated env (m_channel m) ->
  post_tolerated env (m_channel m) ->
  fst (handle_score_submission rt body env w) = Val tt.
Proof.
  intros [Ha Hb] [Fa Fb] Hm Hj Hp. run_handler. rewrite Ha, Hb. cbn.
  rewrite Hm, Fa, Fb. cbn.
  all_calls; try reflexivity; refute_reply Hj Hp.
Qed.

(** X13. When the scores fit their columns, the result cannot be posted
    to the channel and a direct conversation with the submitter can be
    opened, the last thing the handler does is to send the submitter the
    scores, the match id and the error code, so that the outcome is shown
    somewhere. *)
Theorem failed_post_falls_back_to_dm (body : ScoreSubmission) (env : Env)
    (w : World) (a b : Z) (m : Match) (err : option string) (dm : string) :
  scores_parse rt body a b ->
  scores_fit rt a b ->
  select_match (score_private_metadata body) (db w) = Some m ->
  join_tolerated env (m_channel m) ->
  (forall tr msg,
     client env tr (chat_postMessage (m_channel m) msg) = Raise (SlackApiError err)) ->
  (forall tr, client env tr (conversations_open (score_user body)) = Return (Some dm)) ->
  fst (handle_score_submission rt body env w) = Val tt /\
  exists pre r,
    trace (snd (handle_score_submission rt body env w)) =
      pre ++
      [Api (conversations_open (score_user body)) (Return (Some dm));
       Api (chat_postMessage dm
              (ScoresRecordedDM err a b (score_private_metadata body))) r].
Proof.
  intros [Ha Hb] [Fa Fb] Hm Hj Hpost Hopen.
  run_handler. rewrite Ha, Hb. cbn. rewrite Hm, Fa, Fb. cbn.
  destruct (client env _ (conversations_join _)) as [?|[]] eqn:Ej; cbn;
    try (apply Hj in Ej; discriminate Ej);
    rewrite Hpost; cbn; rewrite Hopen; cbn;
    next_call; cbn; (split; [reflexivity|]);
    eexists _, _; symmetry; apply (app_assoc _ [_] [_]).
Qed.

End Delivery.

(** * The score form *)

Section ScoreForm.

Variable rt : Runtime.

(** X14. Opening the score form never writes: the handler reads the match
    once and makes one call, the form for a match that is in the table and
    a direct not-found message to the clicking user otherwise; both tables
    are as before. *)
Theorem open_score_modal_reads_only (body : Action) (env : Env) (w : World) :
  exists c r,
    open_score_modal body env w =
      (res_of_reply r,
       {| db := db w;
          trace := trace w ++
            [Ack;
             Sql (SelectMatch (value body) (select_match (value body) (db w)));
             Api c r] |}) /\
    match select_match (value body) (db w) with
    | None => c = chat_postMessage (action_user body) ScoreMatchNotFound
    | Some m =>
        exists your_label opponent_label,
          c = views_open (action_trigger_id body)
                (SubmitScore (value body) (m_challenger m) (m_opponent m)
                   your_label opponent_label)
    end.
Proof.
  run_handler. destruct (select_match (value body) (db w)) as [m|]; cbn.
  - destruct (decide _); [|destruct (decide _)]; cbn; next_call; cbn;
      match goal with E : client _ _ ?c = ?r |- _ => exists c, r end;
      flatten_trace; (split; [reflexivity|]); eexists _, _; reflexivity.
  - next_call; cbn;
      match goal with E : client _ _ ?c = ?r |- _ => exists c, r end;
      flatten_trace; split; reflexivity.
Qed.

(** X15. The form does not follow the person who fills it in.  For the
    opponent of a match (not also its challenger) the first field, the
    input of the block [score_block_challenger], is labelled "Your score"
    and the second "Score for" the challenger; yet on a submission that
    is recorded (scores that fit their columns, channel joined or refused
    with a Slack error) the first field is the challenger's score and the
    second the opponent's, so a greater first field makes the challenger
    the winner. *)
Theorem opponent_own_score_is_recorded_as_challengers (click : Action)
    (form : ScoreSubmission) (env env' : Env) (w : World) (a b : Z) (m : Match) :
  select_match (value click) (db w) = Some m ->
  action_user click = m_opponent m ->
  m_opponent m <> m_challenger m ->
  score_private_metadata form = value click ->
  score_user form = m_opponent m ->
  scores_parse rt form a b ->
  scores_fit rt a b ->
  join_tolerated env' (m_channel m) ->
  (exists r,
     open_score_modal click env w =
       (res_of_reply r,
        {| db := db w;
           trace := trace w ++
             [Ack; Sql (SelectMatch (value click) (Some m));
              Api (views_open (action_trigger_id click)
                     (SubmitScore (value click) (m_challenger m) (m_opponent m)
                        YourScore (ScoreFor (m_challenger m)))) r] |})) /\
  (exists rec,
     results (db (snd (handle_score_submission rt form env' w))) = results (db w) ++ [rec] /\
     r_challenger_score rec = a /\ r_opponent_score rec = b /\
     r_submitted_by rec = m_opponent m /\
     (a > b -> r_winner rec = Some (m_challenger m))).
Proof.
  intros Hm Hu Hne Hmd Hsu Hparse Hfit Hj. split.
  - run_handler. rewrite Hm. cbn. rewrite Hu.
    destruct (decide (m_opponent m = m_challenger m)); [contradiction|].
    destruct (decide (m_opponent m = m_opponent m)); [|contradiction].
    cbn. next_call; cbn;
      match goal with E : client _ _ _ = ?r |- _ => exists r end;
      flatten_trace; reflexivity.
  - rewrite <- Hmd in Hm.
    destruct (score_submission_inserts rt form env' w a b m Hparse Hfit Hm Hj)
      as (t & Hres).
    eexists. split; [exact Hres|]. cbn. repeat split; try assumption.
    apply determine_winner_spec.
Qed.

End ScoreForm.

(** * Life of a match *)

Section Lifecycle.

Variable rt : Runtime.

Lemma pingpong_creates_match_db (command : Command) (env : Env) (w : World)
    (c : ascii) (rest : string) :
  PyStr.startswith "challenge" (py_strip rt (text command)) = true ->
  resolve_opponent (py_strip rt (text command)) = Some (String c rest) ->
  db (snd (handle_pingpong rt command env w)) =
    upsert_match
      {| m_id := format_match_id (user_id command) (clock env (trace w ++ [Ack]));
         m_challenger := user_id command; m_opponent := String c rest;
         m_channel := channel_id command;
         m_created_at :=
           clock env (trace w ++ [Ack; Now (clock env (trace w ++ [Ack]))]) |}
      (db w).
Proof.
  intros Hstart Hsome. run_handler. rewrite Hstart, Hsome. cbn.
  flatten_trace. reflexivity.
Qed.

(** X16. A match that is challenged and then declined leaves no trace in
    the database: when the new id was free, the table of matches is back to
    what it was and no result has been written. *)
Theorem challenge_then_decline_restores (command : Command) (click : Action)
    (env env' : Env) (w : World) (c : ascii) (rest : string) :
  PyStr.startswith "challenge" (py_strip rt (text command)) = true ->
  resolve_opponent (py_strip rt (text command)) = Some (String c rest) ->
  value click = format_match_id (user_id command) (clock env (trace w ++ [Ack])) ->
  select_match (value click) (db w) = None ->
  db (snd (decline_match click env' (snd (handle_pingpong rt command env w)))) = db w.
Proof.
  intros Hstart Hsome Hid Hfree.
  rewrite decline_match_deletes. cbn [snd db].
  rewrite (pingpong_creates_match_db command env w c rest Hstart Hsome).
  unfold Db.delete_match, upsert_match. cbn [matches results m_id]. rewrite <- Hid.
  rewrite (delete_insert_id _ _ _ Hfree). destruct (db w). reflexivity.
Qed.

(** X17. A match that is challenged and then scored with scores that
    fit their columns, the result being delivered, ends as one more result
    and nothing else: when the new id was free, the table of matches is
    back to what it was, and the log has one new row with the issuer as
    challenger, the mentioned user as opponent, the channel of the command,
    the two scores and their winner. *)
Theorem challenge_then_score_leaves_one_result (command : Command)
    (form : ScoreSubmission) (env env' : Env) (w : World)
    (c : ascii) (rest : string) (a b : Z) :
  PyStr.startswith "challenge" (py_strip rt (text command)) = true ->
  resolve_opponent (py_strip rt (text command)) = Some (String c rest) ->
  score_private_metadata form =
    format_match_id (user_id command) (clock env (trace w ++ [Ack])) ->
  select_match (score_private_metadata form) (db w) = None ->
  scores_parse rt form a b ->
  scores_fit rt a b ->
  join_tolerated env' (channel_id command) ->
  post_returns env' (channel_id command) ->
  let w2 := snd (handle_score_submission rt form env'
                   (snd (handle_pingpong rt command env w))) in
  matches (db w2) = matches (db w) /\
  exists t,
    results (db w2) = results (db w) ++
      [{| r_match_id := score_private_metadata form;
          r_challenger := user_id command; r_opponent := String c rest;
          r_challenger_score := a; r_opponent_score := b;
          r_winner := if a >? b then Some (user_id command)
                      else if b >? a then Some (String c rest) else None;
          r_channel := channel_id command;
          r_submitted_by := score_user form; r_submitted_at := t |}].
Proof.
  intros Hstart Hsome Hid Hfree Hparse Hfit Hj Hpost w2.
  pose proof (pingpong_creates_match_db command env w c rest Hstart Hsome) as Hdb1.
  set (w1 := snd (handle_pingpong rt command env w)) in *.
  set (m := {| m_id := format_match_id (user_id command) (clock env (trace w ++ [Ack]));
               m_challenger := user_id command; m_opponent := String c rest;
               m_channel := channel_id command;
               m_created_at :=
                 clock env (trace w ++ [Ack; Now (clock env (trace w ++ [Ack]))]) |}) in *.
  assert (select_match (score_private_metadata form) (db w1) = Some m) as Hm.
  { rewrite Hdb1, Hid. unfold select_match, upsert_match. cbn.
    apply lookup_insert_eq. }
  destruct (result_inserted_before_match_deleted rt form env' w1 a b m Hparse Hfit
              Hm Hj Hpost)
    as (rj & t & post & d & _ & Hdb2).
  unfold w2. rewrite Hdb2, Hdb1. cbn. split.
  - rewrite Hid. apply delete_insert_id. rewrite <- Hid. exact Hfree.
  - exists t. reflexivity.
Qed.

(** X18. A delivered submission of scores that fit their columns
    commits in order: the handler joins the channel, inserts the result,
    posts it, and only then deletes the match; it runs no other statement,
    and at the end the result is in the log and the match is gone. *)
Theorem delivered_submission_commits (body : ScoreSubmission) (env : Env)
    (w : World) (a b : Z) (m : Match) :
  scores_parse rt body a b ->
  scores_fit rt a b ->
  select_match (score_private_metadata body) (db w) = Some m ->
  join_tolerated env (m_channel m) ->
  post_returns env (m_channel m) ->
  let w' := snd (handle_score_submission rt body env w) in
  exists rj t post d,
    let r := recorded (score_private_metadata body) m a b (score_user body) t in
    trace w' = trace w ++
      [Ack; Sql (SelectMatch (score_private_metadata body) (Some m));
       Api (conversations_join (m_channel m)) rj; Now t;
       Sql (InsertResult r); Api post (Return d);
       Sql (DeleteMatch (score_private_metadata body))] /\
    results (db w') = results (db w) ++ [r] /\
    select_match (score_private_metadata body) (db w') = None.
Proof.
  intros Hparse Hfit Hm Hj Hpost w'.
  destruct (result_inserted_before_match_deleted rt body env w a b m Hparse Hfit
              Hm Hj Hpost)
    as (rj & t & post & d & Htr & Hdb).
  exists rj, t, post, d. cbv zeta. split; [exact Htr|].
  unfold w'. rewrite Hdb. cbn. split; [reflexivity|].
  unfold select_match. cbn. apply lookup_delete_eq.
Qed.

End Lifecycle.

(** * More instances *)

Section MoreInstances.
Import Scenario Mention.

Lemma not_in_c1_join_tolerated channel : join_tolerated not_in_c1 channel.
Proof.
  intros tr e. cbn. destruct (decide (channel = "C1")); [|discriminate].
  intros [= <-]. reflexivity.
Qed.

Lemma not_in_c1_post_tolerated channel : post_tolerated not_in_c1 channel.
Proof.
  intros tr msg e. cbn. destruct (decide (channel = "C1")); [|discriminate].
  intros [= <-]. reflexivity.
Qed.

Lemma calm_post_returns channel : post_returns calm channel.
Proof. intros tr msg. eexists. reflexivity. Qed.

(** A whole evening: a challenge, an accept, the form, the score, and a
    late decline. *)
Lemma run_keeps_winners_sound_witness :
  let steps :=
    [(SlashPingpong (challenge "challenge <@U1>" "U2" "C1"), calm);
     (ActionAcceptMatch (click u2_vs_u1 "U1"), calm);
     (ViewSubmitScore (submission u2_vs_u1 "21" "15" "U2"), not_in_c1);
     (ActionDeclineMatch (click u2_vs_u1 "U1"), calm)] in
  Forall sound_winner (results (db (pending u2_vs_u1))) /\
  Forall sound_winner (results (db (run_all cpython steps (pending u2_vs_u1)))).
Proof.
  cbv zeta. assert (Forall sound_winner (results (db (pending u2_vs_u1)))) as H
    by constructor.
  split; [exact H|]. apply run_keeps_winners_sound. exact H.
Defined.

Lemma resolver_returns_a_mention_witness :
  resolve_opponent "challenge @W42 please" = Some "W42" /\ is_code "W42".
Proof.
  assert (resolve_opponent "challenge @W42 please" = Some "W42") as H
    by (vm_compute; reflexivity).
  split; [exact H|]. apply (resolver_returns_a_mention _ _ H).
Defined.

Lemma pingpong_other_text_gets_usage_witness :
  handle_pingpong cpython (challenge "  help " "U2" "C1") calm start =
    (Val tt, {| db := db start; trace := [Ack; Respond false Usage] |}).
Proof.
  apply (pingpong_other_text_gets_usage cpython (challenge "  help " "U2" "C1")
           calm start).
  reflexivity.
Defined.

Lemma challenge_with_mention_creates_match_witness :
  creation_step "U2" "U123ABC" "C1" start
    (snd (handle_pingpong cpython (challenge " challenge <@U123ABC|bob> now " "U2" "C1")
            calm start))
    [Respond true (Challenge "U2" "U123ABC" (format_match_id "U2" 1700000000))].
Proof.
  apply (challenge_with_mention_creates_match cpython
           (challenge " challenge <@U123ABC|bob> now " "U2" "C1") calm start
           "challenge " "<@U123ABC|bob>" "U123ABC" " now").
  - reflexivity.
  - reflexivity.
  - apply (canonical_named "U123ABC" "bob");
      [split; [discriminate|reflexivity]|discriminate|reflexivity].
  - apply (none_before_free canonical Re.canonical_mention);
      [apply canonical_here_some|reflexivity].
Defined.

Lemma pick_without_separator_fails_witness :
  handle_pick_opponent (pick "C1" "U3") calm start =
    (Exc ValueError, {| db := db start; trace := [Ack] |}).
Proof.
  apply (pick_without_separator_fails (pick "C1" "U3") calm start). reflexivity.
Defined.

Lemma private_metadata_round_trip_witness :
  unpack_private_metadata (format_private_metadata "C1" "U|2") calm start =
    (Val ("C1", "U|2"), start).
Proof. apply private_metadata_round_trip. reflexivity. Defined.

Lemma pick_opponent_absorbs_delivery_failure_witness :
  fst (handle_pick_opponent (pick "C1|U2" "U3") not_in_c1 start) = Val tt.
Proof.
  apply (pick_opponent_absorbs_delivery_failure (pick "C1|U2" "U3") not_in_c1 start
           "C1" "U2").
  - reflexivity.
  - reflexivity.
  - apply not_in_c1_join_tolerated.
  - apply not_in_c1_post_tolerated.
Defined.

Lemma score_submission_absorbs_delivery_failure_witness :
  fst (handle_score_submission cpython (submission u2_vs_u1 "21" "15" "U2") not_in_c1
         (pending u2_vs_u1)) = Val tt.
Proof.
  apply (score_submission_absorbs_delivery_failure cpython
           (submission u2_vs_u1 "21" "15" "U2") not_in_c1 (pending u2_vs_u1)
           21 15 u2_vs_u1).
  - split; reflexivity.
  - split; reflexivity.
  - reflexivity.
  - apply not_in_c1_join_tolerated.
  - apply not_in_c1_post_tolerated.
Defined.

Lemma failed_post_falls_back_to_dm_witness :
  exists pre r,
    trace (snd (handle_score_submission cpython (submission u2_vs_u1 "21" "15" "U2")
                  not_in_c1 (pending u2_vs_u1))) =
      pre ++
      [Api (conversations_open "U2") (Return (Some "D024BE91L"));
       Api (chat_postMessage "D024BE91L"
              (ScoresRecordedDM (Some "not_in_channel") 21 15 (m_id u2_vs_u1))) r].
Proof.
  apply (failed_post_falls_back_to_dm cpython (submission u2_vs_u1 "21" "15" "U2")
           not_in_c1 (pending u2_vs_u1) 21 15 u2_vs_u1 (Some "not_in_channel")
           "D024BE91L").
  - split; reflexivity.
  - split; reflexivity.
  - reflexivity.
  - apply not_in_c1_join_tolerated.
  - reflexivity.
  - reflexivity.
Defined.

(** [U1], the opponent, enters 21 for themselves and 15 for [U2]: [U2],
    the challenger, is recorded as the winner. *)
Lemma opponent_own_score_is_recorded_as_challengers_witness :
  exists rec,
    results (db (snd (handle_score_submission cpython (submission u2_vs_u1 "21" "15" "U1")
                        calm (pending u2_vs_u1)))) = [rec] /\
    r_submitted_by rec = "U1" /\ r_winner rec = Some "U2".
Proof.
  destruct (opponent_own_score_is_recorded_as_challengers cpython
              (click u2_vs_u1 "U1") (submission u2_vs_u1 "21" "15" "U1") calm calm
              (pending u2_vs_u1) 21 15 u2_vs_u1)
    as (_ & rec & Hres & _ & _ & Hby & Hwin).
  - reflexivity.
  - reflexivity.
  - discriminate.
  - reflexivity.
  - reflexivity.
  - split; reflexivity.
  - split; reflexivity.
  - apply calm_join_tolerated.
  - exists rec. split; [exact Hres|]. split; [exact Hby|]. apply Hwin. reflexivity.
Defined.

Lemma challenge_then_decline_restores_witness :
  db (snd (decline_match
             {| value := "match_U2_1700000000"; action_user := "U1";
                action_trigger_id := "1337.42.abc" |} calm
             (snd (handle_pingpong cpython (challenge "challenge <@U1>" "U2" "C1") calm
                     (pending u2_vs_u1))))) = db (pending u2_vs_u1).
Proof.
  apply (challenge_then_decline_restores cpython
           (challenge "challenge <@U1>" "U2" "C1")
           _ calm calm (pending u2_vs_u1) "U" "1"); reflexivity.
Defined.

Lemma challenge_then_score_leaves_one_result_witness :
  let form := {| score_private_metadata := "match_U2_1700000000";
                 score_input_challenger := "10"; score_input_opponent := "10";
                 score_user := "U1" |} in
  let w2 := snd (handle_score_submission cpython form calm
                   (snd (handle_pingpong cpython (challenge "challenge <@U1>" "U2" "C1")
                           calm start))) in
  matches (db w2) = matches (db start) /\
  exists t, results (db w2) =
    [{| r_match_id := "match_U2_1700000000"; r_challenger := "U2";
        r_opponent := "U1"; r_challenger_score := 10; r_opponent_score := 10;
        r_winner := None; r_channel := "C1"; r_submitted_by := "U1";
        r_submitted_at := t |}].
Proof.
  apply (challenge_then_score_leaves_one_result cpython
           (challenge "challenge <@U1>" "U2" "C1")
           {| score_private_metadata := "match_U2_1700000000";
              score_input_challenger := "10"; score_input_opponent := "10";
              score_user := "U1" |}
           calm calm start "U" "1" 10 10).
  - reflexivity.
  - reflexivity.
  - reflexivity.
  - reflexivity.
  - split; reflexivity.
  - split; reflexivity.
  - apply calm_join_tolerated.
  - apply calm_post_returns.
Defined.

Lemma delivered_submission_commits_witness :
  select_match (m_id u2_vs_u1)
    (db (snd (handle_score_submission cpython (submission u2_vs_u1 "21" "15" "U2") calm
                (pending u2_vs_u1)))) = None.
Proof.
  destruct (delivered_submission_commits cpython
              (submission u2_vs_u1 "21" "15" "U2") calm (pending u2_vs_u1)
              21 15 u2_vs_u1)
    as (rj & t & post & d & _ & _ & Hgone).
  - split; reflexivity.
  - split; reflexivity.
  - reflexivity.
  - apply calm_join_tolerated.
  - apply calm_post_returns.
  - exact Hgone.
Defined.

Lemma resubmission_after_delivery_witness :
  let form := submission u2_vs_u1 "21" "15" "U2" in
  let w1 := snd (handle_score_submission cpython form calm (pending u2_vs_u1)) in
  db (snd (handle_score_submission cpython form not_in_c1 w1)) = db w1.
Proof.
  apply (resubmission_after_delivery cpython (submission u2_vs_u1 "21" "15" "U2")
           calm not_in_c1 (pending u2_vs_u1) 21 15 u2_vs_u1).
  - split; reflexivity.
  - reflexivity.
  - apply calm_join_tolerated.
  - apply calm_post_returns.
Defined.

Lemma score_submission_out_of_range_raises_witness :
  exists rj t,
    handle_score_submission cpython
      (submission u2_vs_u1 "21" "99999999999999999999" "U2") not_in_c1
      (pending u2_vs_u1) =
      (Exc DatabaseError,
       {| db := db (pending u2_vs_u1);
          trace :=
            [Ack; Sql (SelectMatch (m_id u2_vs_u1) (Some u2_vs_u1));
             Api (conversations_join "C1") rj; Now t] |}).
Proof.
  apply (score_submission_out_of_range_raises cpython
           (submission u2_vs_u1 "21" "99999999999999999999" "U2") not_in_c1
           (pending u2_vs_u1) 21 99999999999999999999 u2_vs_u1).
  - split; vm_compute; reflexivity.
  - reflexivity.
  - reflexivity.
  - apply not_in_c1_join_tolerated.
Defined.

End MoreInstances.
